(** * Medsurg inventory and point of sale: a shallow embedding of medsurg.py

    The development follows the source file top to bottom: the company
    constants, the spreadsheet adapter (gspread worksheets held as rows of
    cells), [get_inventory], [delete_item], the invoice renderer
    [create_pdf], and the "New Sale" tab with its three buttons.  Effects
    (spreadsheet calls, the session cart, the messages shown to the
    operator) are threaded through one state and exception monad. *)

From Stdlib Require Import ZArith List String Ascii Bool Lia DecimalString Floats.
Import ListNotations.
Open Scope Z_scope.

(** ** Text

    A Python [str] is a sequence of Unicode code points.  [Stdlib.String]
    only has 8-bit characters, so literals of the program are written as
    [string] and user supplied text is a list of code points. *)

Definition text := list N.

Definition lit (s : string) : text := map N_of_ascii (list_ascii_of_string s).

Fixpoint text_eqb (a b : text) : bool :=
  match a, b with
  | [], [] => true
  | x :: a', y :: b' => (x =? y)%N && text_eqb a' b'
  | _, _ => false
  end.

(** [str(n)] for a Python [int]. *)
Definition str_int (z : Z) : text := lit (NilZero.string_of_int (Z.to_int z)).

(** A code point that the latin-1 codec can encode. *)
Definition latin1 (c : N) : bool := (c <? 256)%N.

(** ** Floats

    Prices and amounts are Python floats.  The program only converts,
    multiplies, sums, compares and formats them, so the embedding is
    generic in an interface with exactly those operations; [Binary64]
    below instantiates it with the kernel's IEEE 754 binary64 numbers. *)

Class PyFloat (F : Type) := {
  float_of_int : Z -> F;             (* float(n) *)
  int_of_float : F -> option Z;      (* int(x); None when x is nan or inf *)
  astype_int : F -> Z;               (* numpy's cast of a float64 to int64 *)
  fis_nan : F -> bool;
  fmul : F -> F -> F;                (* x * y *)
  fsum : list F -> F;                (* the builtin sum(xs) *)
  feqb : F -> F -> bool;             (* x == y *)
  int_eq_float : Z -> F -> bool;     (* n == x for an int n *)
  float_str : F -> string;           (* str(x) *)
  fmt_2f : F -> string;              (* f"{x:.2f}" *)
  fmt_c2f : F -> string              (* f"{x:,.2f}" *)
}.

(** *** CPython's floats: IEEE 754 binary64

    A finite float is [m * 2^e] with [m] and [e] integers, which makes
    conversion and formatting exact integer arithmetic. *)

Module Binary64.

Local Infix "+++" := String.append (at level 60, right associativity).
Local Open Scope string_scope.
Local Open Scope Z_scope.

(** [float(n)]: the nearest float, ties to even. *)
Definition of_Z (z : Z) : float := SF2Prim (binary_normalize 53 1024 z 0 false).

(** [int(x)]: rounding toward zero. *)
Definition trunc (x : float) : option Z :=
  match Prim2SF x with
  | S754_zero _ => Some 0
  | S754_finite s m e =>
      let v := if e >=? 0 then Zpos m * 2 ^ e else Zpos m / 2 ^ (- e) in
      Some (if s then - v else v)
  | _ => None
  end.

(** The cast to int64: what does not fit comes out as the least int64. *)
Definition to_int64 (x : float) : Z :=
  match trunc x with
  | Some z => if (- 2 ^ 63 <=? z) && (z <? 2 ^ 63) then z else - 2 ^ 63
  | None => - 2 ^ 63
  end.

(** [n == x]: the comparison is exact. *)
Definition eq_int (z : Z) (x : float) : bool :=
  match Prim2SF x with
  | S754_zero _ => z =? 0
  | S754_finite s m e =>
      let v := if s then Zneg m else Zpos m in
      if e >=? 0 then z =? v * 2 ^ e
      else (Zpos m mod 2 ^ (- e) =? 0) && (z =? v / 2 ^ (- e))
  | _ => false
  end.

(** Nearest integer to [n / d], ties to even ([0 <= n], [0 < d]). *)
Definition div_half_even (n d : Z) : Z :=
  let q := n / d in
  let r := n mod d in
  if 2 * r <? d then q
  else if d <? 2 * r then q + 1
  else if Z.even q then q else q + 1.

(** Nearest integer to [m * 2^e / 10^k]. *)
Definition scaled (m e k : Z) : Z :=
  div_half_even (m * 2 ^ Z.max e 0 * 10 ^ Z.max (- k) 0)
                (2 ^ Z.max (- e) 0 * 10 ^ Z.max k 0).

Definition digits (z : Z) : string := NilZero.string_of_uint (N.to_uint (Z.to_N z)).

Definition two_digits (z : Z) : string :=
  (if z <? 10 then "0" else "") +++ digits z.

(** Thousands separators, for the [,] format option. *)
Fixpoint group3 (rev_digits : list ascii) : list ascii :=
  match rev_digits with
  | a :: b :: c :: ((_ :: _) as rest) => a :: b :: c :: ","%char :: group3 rest
  | l => l
  end.

Definition grouped (s : string) : string :=
  string_of_list_ascii (rev (group3 (rev (list_ascii_of_string s)))).

(** [f"{x:.2f}"] and, with [comma], [f"{x:,.2f}"]. *)
Definition format_2f (comma : bool) (x : float) : string :=
  match Prim2SF x with
  | S754_nan => "nan"
  | S754_infinity s => if s then "-inf" else "inf"
  | S754_zero s => if s then "-0.00" else "0.00"
  | S754_finite s m e =>
      let c := scaled (Zpos m) e (-2) in
      let ip := digits (c / 100) in
      (if s then "-" else "") +++ (if comma then grouped ip else ip)
        +++ "." +++ two_digits (c mod 100)
  end.

(** The sign of [a * 2^ea - b * 10^kb]. *)
Definition cmp_bin_dec (a ea b kb : Z) : comparison :=
  (a * 2 ^ Z.max ea 0 * 10 ^ Z.max (- kb) 0 ?= b * 10 ^ Z.max kb 0 * 2 ^ Z.max (- ea) 0).

(** [floor (log10 (m * 2^e))]. *)
Definition log10_floor (m e : Z) : Z :=
  let p0 := (Z.log2 m + e) * 30103 / 100000 - 1 in
  let ge p := match cmp_bin_dec m e 1 p with Lt => false | _ => true end in
  if ge (p0 + 2) then p0 + 2 else if ge (p0 + 1) then p0 + 1 else p0.

(** Does the decimal [q * 10^k] read back as the float [m * 2^e]? *)
Definition reads_back (m e q k : Z) : bool :=
  let below := if (m =? 2 ^ 52) && (-1074 <? e) then 1 else 2 in
  let lo := cmp_bin_dec (4 * m - below) (e - 2) q k in
  let hi := cmp_bin_dec (4 * m + 2) (e - 2) q k in
  match lo, hi with
  | Lt, Gt => true
  | Eq, _ => Z.even m
  | _, Eq => Z.even m
  | _, _ => false
  end.

(** The shortest decimal that reads back as [m * 2^e]: its digits and the
    exponent of its last digit. *)
Fixpoint shortest (fuel : nat) (nd : Z) (m e p : Z) : Z * Z :=
  let k := p - nd + 1 in
  let q := scaled m e k in
  match fuel with
  | O => (q, k)
  | S fuel' => if reads_back m e q k then (q, k) else shortest fuel' (nd + 1) m e p
  end.

Fixpoint strip_zeros (fuel : nat) (q k : Z) : Z * Z :=
  match fuel with
  | O => (q, k)
  | S fuel' =>
      if (q mod 10 =? 0) && (0 <? q) then strip_zeros fuel' (q / 10) (k + 1) else (q, k)
  end.

Fixpoint zeros (n : nat) : string :=
  match n with O => "" | S n' => String "0" (zeros n') end.

(** [str(x)]: the shortest decimal that reads back as [x]. *)
Definition repr (x : float) : string :=
  match Prim2SF x with
  | S754_nan => "nan"
  | S754_infinity s => if s then "-inf" else "inf"
  | S754_zero s => if s then "-0.0" else "0.0"
  | S754_finite s m e =>
      let '(q, k) := shortest 16 1 (Zpos m) e (log10_floor (Zpos m) e) in
      let '(q, k) := strip_zeros 17 q k in
      let ds := digits q in
      let n := Z.of_nat (String.length ds) in
      let decpt := n + k in
      let body :=
        if (decpt <=? -4) || (16 <? decpt) then
          let ex := decpt - 1 in
          substring 0 1 ds
            +++ (if 1 <? n then "." +++ substring 1 (String.length ds - 1) ds else "")
            +++ "e" +++ (if ex <? 0 then "-" else "+") +++ two_digits (Z.abs ex)
        else if decpt <=? 0 then
          "0." +++ zeros (Z.to_nat (- decpt)) +++ ds
        else if n <=? decpt then
          ds +++ zeros (Z.to_nat (decpt - n)) +++ ".0"
        else
          substring 0 (Z.to_nat decpt) ds +++ "."
            +++ substring (Z.to_nat decpt) (String.length ds - Z.to_nat decpt) ds
      in (if s then "-" else "") +++ body
  end.

(** [sum(xs)]: additions from the left, starting at 0, as CPython does up
    to 3.11 (3.12 adds a compensation term for the rounding errors).  The
    properties below hold for any [fsum]. *)
Definition sum (xs : list float) : float := fold_left PrimFloat.add xs 0%float.

End Binary64.

#[export] Instance binary64 : PyFloat float := {|
  float_of_int := Binary64.of_Z;
  int_of_float := Binary64.trunc;
  astype_int := Binary64.to_int64;
  fis_nan := PrimFloat.is_nan;
  fmul := PrimFloat.mul;
  fsum := Binary64.sum;
  feqb := PrimFloat.eqb;
  int_eq_float := Binary64.eq_int;
  float_str := Binary64.repr;
  fmt_2f := Binary64.format_2f false;
  fmt_c2f := Binary64.format_2f true |}.

Section Medsurg.

Context {F : Type} `{PyFloat F}.

(** ** Cells, rows and worksheets

    A cell holds what [get_all_records] hands back for it: gspread turns a
    cell that reads as a number into an [int] or a [float] and leaves
    everything else a string.  A worksheet is the list of its rows, row 1
    (the header) first. *)

Inductive cell :=
| CInt (z : Z)
| CFloat (x : F)
| CText (t : text).

Definition row := list cell.
Definition sheet := list row.

(** Python's [==] between two cell values. *)
Definition cell_eqb (a b : cell) : bool :=
  match a, b with
  | CInt x, CInt y => x =? y
  | CFloat x, CFloat y => feqb x y
  | CInt x, CFloat y => int_eq_float x y
  | CFloat x, CInt y => int_eq_float y x
  | CText s, CText t => text_eqb s t
  | _, _ => false
  end.

(** [str(v)] of a cell value, also what the sheet displays for it. *)
Definition cell_str (c : cell) : text :=
  match c with
  | CInt z => str_int z
  | CFloat x => lit (float_str x)
  | CText t => t
  end.

Definition empty_cell : cell := CText [].

(** Rows come back padded with empty strings. *)
Definition cell_at (r : row) (i : nat) : cell := nth i r empty_cell.

Fixpoint set_nth {A} (d : A) (i : nat) (v : A) (l : list A) : list A :=
  match i, l with
  | O, [] => [v]
  | O, _ :: l' => v :: l'
  | S i', [] => d :: set_nth d i' v []
  | S i', x :: l' => x :: set_nth d i' v l'
  end.

(** [ws.update_cell(r, c, v)], rows and columns counted from 1; the grid
    has blank cells beyond the data. *)
Definition update_cell_pure (r c : nat) (v : cell) (sh : sheet) : sheet :=
  set_nth [] (pred r) (set_nth empty_cell (pred c) v (nth (pred r) sh [])) sh.

Fixpoint remove_nth {A} (i : nat) (l : list A) : list A :=
  match i, l with
  | _, [] => []
  | O, _ :: l' => l'
  | S i', x :: l' => x :: remove_nth i' l'
  end.

(** [ws.delete_rows(r)]. *)
Definition delete_rows_pure (r : nat) (sh : sheet) : sheet := remove_nth (pred r) sh.

(** Index of the first element satisfying [p]. *)
Fixpoint find_index {A} (p : A -> bool) (l : list A) : option nat :=
  match l with
  | [] => None
  | x :: l' => if p x then Some O else option_map S (find_index p l')
  end.

(** [ws.find(query)]: the first cell, in row-major order over the whole
    sheet, whose displayed value is the query; the result is its row
    number. *)
Definition row_matches (q : text) (r : row) : bool :=
  existsb (fun c => text_eqb (cell_str c) q) r.

Definition find_row_pure (q : text) (sh : sheet) : option nat :=
  option_map S (find_index (row_matches q) sh).

(** ** Data frames

    [pd.DataFrame(ws.get_all_records())]: the header row gives the column
    keys, the other rows are the records. *)

Record frame := mkFrame { columns : row; records : list row }.

Definition get_all_records_pure (sh : sheet) : frame :=
  match sh with
  | [] => mkFrame [] []
  | hdr :: rows => match rows with
                   | [] => mkFrame [] []        (* pd.DataFrame([]) has no column *)
                   | _ => mkFrame hdr rows
                   end
  end.

Definition is_key (k : string) (c : cell) : bool := text_eqb (cell_str c) (lit k).

Definition col_index (k : string) (df : frame) : option nat :=
  find_index (is_key k) (columns df).


(** ** Exceptions and script control

    [Raise] is an ordinary exception ([except Exception] catches it).
    [st.stop()] and [st.rerun()] unwind the script with exceptions that
    are not [Exception]s, so only a bare [except:] sees them. *)

Inductive exn :=
| APIError (msg : text)            (* raised by the spreadsheet adapter *)
| KeyError (key : string)
| IndexError (msg : string)
| ValueError (msg : text)
| OverflowError (msg : string)
| AttributeError (msg : string)
| UnicodeEncodeError.

Definition exn_str (e : exn) : text :=
  match e with
  | APIError msg => msg
  | KeyError key => lit "'" ++ lit key ++ lit "'"
  | IndexError msg => lit msg
  | ValueError msg => msg
  | OverflowError msg => lit msg
  | AttributeError msg => lit msg
  | UnicodeEncodeError => lit "'latin-1' codec can't encode character"
  end.

Inductive signal :=
| Raise (e : exn)
| StopScript
| RerunScript.

(** ** The store, the session and the page *)

Inductive ws_name := Inventory | Invoices | Invoice_Items.

Record database := mkDb {
  inventory_ws : sheet;
  invoices_ws : sheet;
  items_ws : sheet }.

Definition worksheet_of (n : ws_name) (d : database) : sheet :=
  match n with
  | Inventory => inventory_ws d
  | Invoices => invoices_ws d
  | Invoice_Items => items_ws d
  end.

Definition with_worksheet (n : ws_name) (f : sheet -> sheet) (d : database) : database :=
  match n with
  | Inventory => mkDb (f (inventory_ws d)) (invoices_ws d) (items_ws d)
  | Invoices => mkDb (inventory_ws d) (f (invoices_ws d)) (items_ws d)
  | Invoice_Items => mkDb (inventory_ws d) (invoices_ws d) (f (items_ws d))
  end.

(** The calls made on the remote spreadsheet, as they are logged. *)
Inductive call :=
| Connect
| Worksheet (n : ws_name)
| GetAllValues (n : ws_name)
| GetAllRecords (n : ws_name)
| AppendRow (n : ws_name) (r : row)
| UpdateCell (n : ws_name) (r c : nat) (v : cell)
| Find (n : ws_name) (q : text)
| DeleteRows (n : ws_name) (r : nat).

(** A line of [st.session_state.cart]. *)
Record cart_line := mkLine {
  item : cell;
  qty : Z;
  price : F;
  subtotal : F }.

(** The rendered invoice: the drawing calls received by the FPDF object. *)
Inductive pdf_op :=
| AddPage
| SetFont (family style : string) (size : Z)
| Cell (w h : Z) (txt : text) (border ln : Z) (align : string) (fill : bool)
| MultiCell (w h : Z) (txt : text) (align : string)
| Ln (h : Z)
| SetLineWidth (width : string)
| RuleAtY (x1 x2 : Z)
| SetFillColor (r g b : Z).

Definition document := list pdf_op.

(** What the page shows, in the order the script emits it. *)
Inductive message :=
| StError (t : text)
| StSuccess (t : text)
| StWarning (t : text)
| StMetric (label value : text)
| StDownload (label : text) (data : document) (file_name : text).

(** [faults] is the fate of the coming spreadsheet calls: each call takes
    the head; [Some msg] makes it fail with [APIError msg].  [log] keeps
    the calls that went through. *)
Record state := mkState {
  db : database;
  faults : list (option text);
  log : list call;
  secrets : bool;
  cart : list cart_line;
  out : list message }.

Definition M (A : Type) : Type := state -> (signal + A) * state.

Definition ret {A} (a : A) : M A := fun s => (inr a, s).

Definition bind {A B} (m : M A) (k : A -> M B) : M B := fun s =>
  match m s with
  | (inl sg, s') => (inl sg, s')
  | (inr a, s') => k a s'
  end.

Definition throw {A} (sg : signal) : M A := fun s => (inl sg, s).

Definition lift {A} (r : exn + A) : M A :=
  match r with
  | inl e => throw (Raise e)
  | inr a => ret a
  end.

(** [try: body except Exception as e: handler]. *)
Definition try_except {A} (body : M A) (handler : exn -> M A) : M A := fun s =>
  match body s with
  | (inl (Raise e), s') => handler e s'
  | r => r
  end.

(** [try: body except: handler]. *)
Definition try_bare {A} (body : M A) (handler : M A) : M A := fun s =>
  match body s with
  | (inl _, s') => handler s'
  | r => r
  end.

Definition gets {A} (f : state -> A) : M A := fun s => (inr (f s), s).
Definition modify (f : state -> state) : M unit := fun s => (inr tt, f s).

Notation "x <- m ;; k" := (bind m (fun x => k))
  (at level 61, m at next level, right associativity).
Notation "m ;;; k" := (bind m (fun _ => k))
  (at level 61, right associativity).

(** Streamlit calls. *)
Definition emit (m : message) : M unit :=
  modify (fun s => mkState (db s) (faults s) (log s) (secrets s) (cart s) (out s ++ [m])).
Definition st_error (t : text) : M unit := emit (StError t).
Definition st_success (t : text) : M unit := emit (StSuccess t).
Definition st_warning (t : text) : M unit := emit (StWarning t).
Definition st_stop {A} : M A := throw StopScript.
Definition st_rerun {A} : M A := throw RerunScript.
Definition set_cart (c : list cart_line) : M unit :=
  modify (fun s => mkState (db s) (faults s) (log s) (secrets s) c (out s)).

(** One round trip to the spreadsheet service. *)
Definition request (c : call) : M unit := fun s =>
  match faults s with
  | Some msg :: rest =>
      (inl (Raise (APIError msg)), mkState (db s) rest (log s) (secrets s) (cart s) (out s))
  | None :: rest =>
      (inr tt, mkState (db s) rest (log s ++ [c]) (secrets s) (cart s) (out s))
  | [] =>
      (inr tt, mkState (db s) [] (log s ++ [c]) (secrets s) (cart s) (out s))
  end.

Definition write_db (f : database -> database) : M unit :=
  modify (fun s => mkState (f (db s)) (faults s) (log s) (secrets s) (cart s) (out s)).

(** gspread's worksheet methods. *)
Definition worksheet (n : ws_name) : M ws_name := request (Worksheet n) ;;; ret n.

Definition get_all_values (n : ws_name) : M sheet :=
  request (GetAllValues n) ;;; gets (fun s => worksheet_of n (db s)).

Definition get_all_records (n : ws_name) : M frame :=
  request (GetAllRecords n) ;;; gets (fun s => get_all_records_pure (worksheet_of n (db s))).

Definition append_row (n : ws_name) (r : row) : M unit :=
  request (AppendRow n r) ;;; write_db (with_worksheet n (fun sh => sh ++ [r])).

Definition update_cell (n : ws_name) (r c : nat) (v : cell) : M unit :=
  request (UpdateCell n r c v) ;;; write_db (with_worksheet n (update_cell_pure r c v)).

(** [ws.find(q).row]: whether [find] raises or returns [None] when nothing
    matches, taking [.row] of the result raises. *)
Definition find_row (n : ws_name) (q : text) : M nat :=
  request (Find n q) ;;;
  sh <- gets (fun s => worksheet_of n (db s)) ;;
  match find_row_pure q sh with
  | Some r => ret r
  | None => throw (Raise (AttributeError "'NoneType' object has no attribute 'row'"))
  end.

Definition delete_rows (n : ws_name) (r : nat) : M unit :=
  request (DeleteRows n r) ;;; write_db (with_worksheet n (delete_rows_pure r)).

(** ** 0. Company settings *)

Definition COMPANY_NAME : string := "MEDSURG TECHNOLOGY".
Definition COMPANY_ADDRESS : text :=
  lit "Post Office Box 793, Madina" ++ [10%N] ++ lit "Accra, Ghana".
Definition COMPANY_PHONE : string := "+233 20 479 3691 / +233 24 200 1242".
Definition COMPANY_EMAIL : string := "medsurgtechnology@gmail.com".
Definition THANK_YOU_MSG : string := "Thank you for your business!".

(** ** 1. Google Sheets connection *)

Definition cross_mark : text := [10060%N].

Definition get_db_connection : M unit :=
  try_except
    (ok <- gets secrets ;;
     if ok then request Connect
     else st_error (cross_mark ++
            lit " Secrets missing! Please go to Settings > Secrets on Streamlit Cloud.") ;;;
          st_stop)
    (fun e => st_error (cross_mark ++ lit " Connection Error: " ++ exn_str e) ;;; st_stop).

(** [pd.to_numeric(col, errors='coerce').fillna(0).astype(int)], cell by cell. *)
Definition to_stock (c : cell) : Z :=
  match c with
  | CInt z => z
  | CFloat x => if fis_nan x then 0 else astype_int x
  | CText _ => 0
  end.

(** [pd.to_numeric(col, errors='coerce').fillna(0.0).astype(float)]. *)
Definition to_price (c : cell) : F :=
  match c with
  | CInt z => float_of_int z
  | CFloat x => if fis_nan x then float_of_int 0 else x
  | CText _ => float_of_int 0
  end.

Definition column_of (k : string) (df : frame) : exn + list cell :=
  match col_index k df with
  | Some j => inr (map (fun r => cell_at r j) (records df))
  | None => inl (KeyError k)
  end.

(** [df[k] = f(df[k])]: the column [k] is replaced in every record. *)
Definition map_column (k : string) (f : cell -> cell) (df : frame) : exn + frame :=
  match col_index k df with
  | Some j => inr (mkFrame (columns df)
                     (map (fun r => set_nth empty_cell j (f (cell_at r j)) r) (records df)))
  | None => inl (KeyError k)
  end.

Definition inventory_columns : row :=
  [CText (lit "Item Name"); CText (lit "Stock Qty"); CText (lit "Unit Price")].

Definition get_inventory : M frame :=
  get_db_connection ;;;
  ws <- worksheet Inventory ;;
  data <- get_all_records ws ;;
  match records data with
  | [] => ret (mkFrame inventory_columns [])
  | _ =>
      df1 <- lift (map_column "Stock Qty" (fun c => CInt (to_stock c)) data) ;;
      lift (map_column "Unit Price" (fun c => CFloat (to_price c)) df1)
  end.

Definition quoted (t : text) : text := lit "'" ++ t ++ lit "'".

Definition delete_item (name : text) : M unit :=
  get_db_connection ;;;
  ws <- worksheet Inventory ;;
  try_bare
    (r <- find_row ws name ;;
     delete_rows ws r ;;;
     st_success (lit "Deleted " ++ quoted name))
    (st_error (lit "Item not found.")).

(** ** 2. PDF generator *)

(** [str(text).encode('latin-1', 'replace').decode('latin-1')]: a code
    point the codec cannot encode becomes a question mark. *)
Definition clean (t : text) : text :=
  map (fun c => if latin1 c then c else 63%N) t.

Definition op_text (o : pdf_op) : text :=
  match o with
  | Cell _ _ txt _ _ _ _ => txt
  | MultiCell _ _ txt _ => txt
  | _ => []
  end.

(** [pdf.output(dest='S').encode('latin-1')]: the page buffer is encoded
    as latin-1, which raises when a drawn text does not fit the codec. *)
Definition pdf_output (pdf : document) : exn + document :=
  if forallb (fun o => forallb latin1 (op_text o)) pdf then inr pdf
  else inl UnicodeEncodeError.

(** The body of [for item in items]. *)
Definition item_cells (pdf : document) (i : cart_line) : document :=
  pdf ++ [ Cell 90 10 (clean (cell_str (item i))) 1 0 "" false;
           Cell 30 10 (str_int (qty i)) 1 0 "C" false;
           Cell 35 10 (lit (fmt_2f (price i))) 1 0 "R" false;
           Cell 35 10 (lit (fmt_2f (subtotal i))) 1 1 "R" false ].

Definition pdf_head (invoice_id : Z) (customer_name date : text) : document :=
  [ AddPage;
    SetFont "Arial" "B" 20;
    Cell 0 10 (clean (lit COMPANY_NAME)) 0 1 "C" false;
    SetFont "Arial" "" 10;
    MultiCell 0 5 (clean COMPANY_ADDRESS) "C";
    Cell 0 5 (lit "Tel: " ++ clean (lit COMPANY_PHONE)) 0 1 "C" false;
    Cell 0 5 (lit "Email: " ++ clean (lit COMPANY_EMAIL)) 0 1 "C" false;
    Ln 10;
    SetLineWidth "0.5";
    RuleAtY 10 200;
    Ln 5;
    SetFont "Arial" "B" 12;
    Cell 0 10 (lit "OFFICIAL INVOICE") 0 1 "C" false;
    SetFont "Arial" "" 11;
    Cell 100 8 (lit "Customer: " ++ clean customer_name) 0 0 "" false;
    Cell 90 8 (lit "Invoice #: " ++ str_int invoice_id) 0 1 "R" false;
    Cell 100 8 [] 0 0 "" false;
    Cell 90 8 (lit "Date: " ++ clean date) 0 1 "R" false;
    Ln 5;
    SetFillColor 240 240 240;
    SetFont "Arial" "B" 11;
    Cell 90 10 (lit "Description") 1 0 "L" true;
    Cell 30 10 (lit "Qty") 1 0 "C" true;
    Cell 35 10 (lit "Unit Price") 1 0 "R" true;
    Cell 35 10 (lit "Total") 1 1 "R" true;
    SetFont "Arial" "" 11 ].

Definition pdf_tail (total : F) : document :=
  [ Ln 5;
    SetFont "Arial" "B" 12;
    Cell 155 10 (lit "GRAND TOTAL (GHS):") 0 0 "R" false;
    Cell 35 10 (lit (fmt_c2f total)) 0 1 "R" false;
    Ln 20;
    SetFont "Arial" "I" 10;
    Cell 0 10 (clean (lit THANK_YOU_MSG)) 0 1 "C" false ].

Definition create_pdf (invoice_id : Z) (customer_name date : text)
    (items : list cart_line) (total : F) : exn + document :=
  let pdf := pdf_head invoice_id customer_name date in
  let pdf := fold_left item_cells items pdf in
  let pdf := pdf ++ pdf_tail total in
  pdf_output pdf.

(** ** 3. Interface: the "New Sale" tab *)

(** [int(v)] and [float(v)] of a cell value. *)
Definition py_int (c : cell) : exn + Z :=
  match c with
  | CInt z => inr z
  | CFloat x =>
      match int_of_float x with
      | Some z => inr z
      | None => if fis_nan x
                then inl (ValueError (lit "cannot convert float NaN to integer"))
                else inl (OverflowError "cannot convert float infinity to integer")
      end
  | CText t => inl (ValueError (lit "invalid literal for int() with base 10: " ++ quoted t))
  end.

Definition py_float (c : cell) : exn + F :=
  match c with
  | CInt z => inr (float_of_int z)
  | CFloat x => inr x
  | CText t => inl (ValueError (lit "could not convert string to float: " ++ quoted t))
  end.

(** [df.index[df['Item Name'] == name].tolist()[0]]. *)
Definition first_index (name : cell) (df : frame) : exn + nat :=
  match column_of "Item Name" df with
  | inl e => inl e
  | inr names =>
      match find_index (fun c => cell_eqb c name) names with
      | Some i => inr i
      | None => inl (IndexError "list index out of range")
      end
  end.

(** [df.loc[df['Item Name'] == name, k].values[0]]. *)
Definition first_value (name : cell) (k : string) (df : frame) : exn + cell :=
  match column_of "Item Name" df with
  | inl e => inl e
  | inr names =>
      match column_of k df with
      | inl e => inl e
      | inr vals =>
          match find_index (fun c => cell_eqb c name) names with
          | Some i => inr (nth i vals empty_cell)
          | None => inl (IndexError "index 0 is out of bounds for axis 0 with size 0")
          end
      end
  end.

(** What the operator did to trigger this run of the script.  The product
    and quantity widgets only matter with "Add to Cart", the customer box
    and the clock only with "Confirm & Print". *)
Inductive event :=
| NoClick
| AddToCart (product : cell) (quantity : Z)
| ClearCart
| ConfirmPrint (cust : text) (ts : text).

(** The "Add to Cart" handler. *)
Definition add_to_cart (df : frame) (it : cell) (q : Z) : M unit :=
  stock <- lift (first_value it "Stock Qty" df) ;;
  price <- lift (first_value it "Unit Price" df) ;;
  stock <- lift (py_int stock) ;;
  price <- lift (py_float price) ;;
  if q >? stock then
    st_error (lit "Low Stock! Only " ++ str_int stock ++ lit " left.")
  else
    c <- gets cart ;;
    set_cart (c ++ [mkLine it q price (fmul (float_of_int q) price)]) ;;;
    st_success (lit "Added " ++ cell_str it).

Fixpoint for_each {A} (l : list A) (body : A -> M unit) : M unit :=
  match l with
  | [] => ret tt
  | x :: l' => body x ;;; for_each l' body
  end.

(** The row number and the value that the loop body passes to
    [update_cell]: [row_idx], then [int(curr) - int(i['qty'])]. *)
Definition stock_write (stock_df : frame) (i : cart_line) : exn + (nat * cell) :=
  match first_index (item i) stock_df with
  | inl e => inl e
  | inr idx =>
      match first_value (item i) "Stock Qty" stock_df with
      | inl e => inl e
      | inr curr =>
          match py_int curr with
          | inl e => inl e
          | inr curr => inr ((idx + 2)%nat, CInt (curr - qty i))
          end
      end
  end.

Definition line_row (inv_id : Z) (i : cart_line) : row :=
  [CInt inv_id; item i; CInt (qty i); CFloat (subtotal i)].

(** The body of the loop over the cart in the "Confirm & Print" handler. *)
Definition commit_line (ws_stock ws_items : ws_name) (stock_df : frame)
    (inv_id : Z) (i : cart_line) : M unit :=
  w <- lift (stock_write stock_df i) ;;
  update_cell ws_stock (fst w) 2 (snd w) ;;;
  append_row ws_items (line_row inv_id i).

(** [len(rows) + 1000]. *)
Definition invoice_id_of (rows : sheet) : Z := Z.of_nat (List.length rows) + 1000.

(** The [try] block of the "Confirm & Print" handler. *)
Definition checkout (cust ts : text) (total : F) : M unit :=
  get_db_connection ;;;
  ws_inv <- worksheet Invoices ;;
  ws_items <- worksheet Invoice_Items ;;
  ws_stock <- worksheet Inventory ;;
  rows <- get_all_values ws_inv ;;
  let inv_id := invoice_id_of rows in
  append_row ws_inv [CInt inv_id; CText cust; CText ts; CFloat total] ;;;
  stock_df <- get_all_records ws_stock ;;
  c <- gets cart ;;
  for_each c (commit_line ws_stock ws_items stock_df inv_id) ;;;
  c <- gets cart ;;
  pdf_bytes <- lift (create_pdf inv_id cust ts c total) ;;
  emit (StDownload (lit "Download PDF") pdf_bytes
          (lit "Invoice_" ++ str_int inv_id ++ lit ".pdf")) ;;;
  st_success (lit "Success!") ;;;
  set_cart [].

Definition confirm_print (cust ts : text) (total : F) : M unit :=
  try_except (checkout cust ts total)
    (fun e => st_error (lit "An error occurred: " ++ exn_str e)).

(** One run of the tab's script. *)
Definition tab2 (ev : event) : M unit :=
  df <- get_inventory ;;
  match records df with
  | [] => st_warning (lit "No items in stock.")
  | _ =>
      _ <- lift (column_of "Item Name" df) ;;
      match ev with
      | AddToCart it q => add_to_cart df it q
      | _ => ret tt
      end
  end ;;;
  c <- gets cart ;;
  match c with
  | [] => ret tt
  | _ =>
      match ev with
      | ClearCart => set_cart [] ;;; st_rerun
      | _ => ret tt
      end ;;;
      let total := fsum (map subtotal c) in
      emit (StMetric (lit "Total") (lit "GHS " ++ lit (fmt_c2f total))) ;;;
      match ev with
      | ConfirmPrint cust ts => confirm_print cust ts total
      | _ => ret tt
      end
  end.

(** A rerun starts from a blank page; the store and the session stay.
    The other two tabs, which only read the store when none of their
    buttons is clicked, are left out of the run. *)
Definition blank_page (s : state) : state :=
  mkState (db s) (faults s) (log s) (secrets s) (cart s) [].

Definition rerun (ev : event) (s : state) : (signal + unit) * state :=
  tab2 ev (blank_page s).

(** ** 3. Interface: the "Inventory" tab *)

(** [add_or_update_item]: [name in df['Item Name'].values] decides between
    the two writes to the stock and price cells of the first row with that
    name and the appending of a new row. *)
Definition add_or_update_item (name : text) (qty : Z) (price : F) : M unit :=
  get_db_connection ;;;
  ws <- worksheet Inventory ;;
  df <- get_all_records ws ;;
  present <- match records df with
             | [] => ret false
             | _ => names <- lift (column_of "Item Name" df) ;;
                    ret (existsb (fun c => cell_eqb c (CText name)) names)
             end ;;
  if present : bool then
    idx <- lift (first_index (CText name) df) ;;
    current_qty <- lift (first_value (CText name) "Stock Qty" df) ;;
    current_qty <- lift (py_int current_qty) ;;
    let new_qty := current_qty + qty in
    update_cell ws (idx + 2)%nat 2 (CInt new_qty) ;;;
    update_cell ws (idx + 2)%nat 3 (CFloat price) ;;;
    st_success (lit "Updated " ++ quoted name ++ lit ": Stock is now " ++ str_int new_qty)
  else
    append_row ws [CText name; CInt qty; CFloat price] ;;;
    st_success (lit "Created " ++ quoted name).

(** The handler of the "Update Inventory" button of the restock form:
    an empty name is passed over in silence. *)
Definition update_inventory (new_name : text) (new_qty : Z) (new_price : F) : M unit :=
  match new_name with
  | [] => ret tt
  | _ => add_or_update_item new_name new_qty new_price ;;; st_rerun
  end.

End Medsurg.

Arguments cell : clear implicits.
Arguments row : clear implicits.
Arguments sheet : clear implicits.
Arguments frame : clear implicits.
Arguments database : clear implicits.
Arguments call : clear implicits.
Arguments cart_line : clear implicits.
Arguments state : clear implicits.
Arguments M : clear implicits.
Arguments event : clear implicits.

(** ** A small shop, for the worked examples

    The scenario of the specification: gauze at 5.00 with ten in stock,
    next to a second product. *)

Module Shop.

Definition gauze : cell float := CText (lit "Gauze").
Definition tape : cell float := CText (lit "Tape").

Definition inventory : sheet float :=
  [ inventory_columns;
    [gauze; CInt 10; CFloat 5%float];
    [tape; CInt 4; CFloat 2.5%float] ].

Definition invoices : sheet float :=
  [ [CText (lit "Invoice ID"); CText (lit "Customer Name"); CText (lit "Date");
     CText (lit "Total Amount")] ].

Definition invoice_items : sheet float :=
  [ [CText (lit "Invoice ID"); CText (lit "Item Name"); CText (lit "Qty");
     CText (lit "Subtotal")] ].

Definition store : database float := mkDb inventory invoices invoice_items.

(** A fresh session on a store that answers every call. *)
Definition opened : state float := mkState store [] [] true [] [].

Definition walk_in : text := lit "Walk-in".
Definition noon : text := lit "2024-03-01 12:00:00".

(** The inventory as [get_inventory] hands it to the tab. *)
Definition shelf : frame float :=
  mkFrame inventory_columns
    [ [gauze; CInt 10; CFloat 5%float]; [tape; CInt 4; CFloat 2.5%float] ].

Definition three_gauze : cart_line float := mkLine gauze 3 5%float 15%float.
Definition four_gauze : cart_line float := mkLine gauze 4 5%float 20%float.
Definition two_tape : cart_line float := mkLine tape 2 2.5%float 5%float.

Definition session (c : list (cart_line float)) : state float :=
  mkState store [] [] true c [].

(** Three gauze in the cart. *)
Definition with_gauze : state float := session [three_gauze].

(** A cart holding the same product twice, and one holding two products. *)
Definition gauze_twice : state float := session [three_gauze; four_gauze].
Definition gauze_and_tape : state float := session [three_gauze; two_tape].

(** The sessions after "Confirm & Print". *)
Definition sold (s : state float) : state float :=
  snd (rerun (ConfirmPrint walk_in noon) s).

(** A store whose [n]-th coming call fails. *)
Definition quota : text := lit "Quota exceeded".
Definition failing_at (n : nat) (s : state float) : state float :=
  mkState (db s) (repeat None n ++ [Some quota]) (log s) (secrets s) (cart s) (out s).

(** A product that is not on the sheet, and more gauze than the shop has. *)
Definition swab : cell float := CText (lit "Swab").

(** A sheet with no item yet. *)
Definition bare : state float :=
  mkState (mkDb [inventory_columns] invoices invoice_items) [] [] true [] [].

(** A sheet whose stock column is titled "Qty". *)
Definition mislabelled : state float :=
  mkState (mkDb [ [CText (lit "Item Name"); CText (lit "Qty"); CText (lit "Unit Price")];
                  [gauze; CInt 10; CFloat 5%float] ]
             invoices invoice_items) [] [] true [] [].

(** A sheet on which somebody typed the stock of the swabs in words. *)
Definition in_words : state float :=
  mkState (mkDb [ inventory_columns; [swab; CText (lit "ten"); CFloat 1%float] ]
             invoices invoice_items) [] [] true [] [].

End Shop.

(** * The vocabulary of the properties

    Views of the state, of the log and of the document in which the
    properties below are stated, and the pieces [checkout] and [tab2] are
    split into for the proofs. *)

Section Vocabulary.

Context {F : Type} `{PyFloat F}.

Local Abbreviation St := (state F).

Local Notation "x <- m ;; k" := (bind m (fun x => k))
  (at level 61, m at next level, right associativity).
Local Notation "m ;;; k" := (bind m (fun _ => k))
  (at level 61, right associativity).

(** The state after a call that went through. *)
Definition logged (c : call F) (s : St) : St :=
  mkState (db s) (tl (faults s)) (log s ++ [c]) (secrets s) (cart s) (out s).

(** A relation between the state before and after, kept by every run. *)
Definition respects {A} (R : St -> St -> Prop) (m : M F A) : Prop :=
  forall s r s', m s = (r, s') -> R s s'.

(** What a run can raise. *)
Definition raises_only {A} (m : M F A) : Prop :=
  forall s sg s', m s = (inl sg, s') -> exists e, sg = Raise e.

Definition never_fails {A} (m : M F A) : Prop :=
  forall s sg s', m s <> (inl sg, s').

Definition reads_only (s s' : St) : Prop :=
  db s' = db s /\ cart s' = cart s /\ secrets s' = secrets s.

Definition put_db (d : database F) (s : St) : St :=
  mkState d (faults s) (log s) (secrets s) (cart s) (out s).

(** The calls one cart line makes once its write is worked out. *)
Definition line_calls (inv_id : Z) (i : cart_line F) (w : nat * cell F) : list (call F) :=
  [UpdateCell Inventory (fst w) 2 (snd w); AppendRow Invoice_Items (line_row inv_id i)].

Definition apply_write (sh : sheet F) (w : nat * cell F) : sheet F :=
  update_cell_pure (fst w) 2 (snd w) sh.

Definition invoice_row (inv_id : Z) (cust ts : text) (total : F) : row F :=
  [CInt inv_id; CText cust; CText ts; CFloat total].

(** The calls of a commit before its loop. *)
Definition opening_calls (inv_id : Z) (cust ts : text) (total : F) : list (call F) :=
  [ Connect; Worksheet Invoices; Worksheet Invoice_Items; Worksheet Inventory;
    GetAllValues Invoices; AppendRow Invoices (invoice_row inv_id cust ts total);
    GetAllRecords Inventory ].

(** The sheet as [init_db] lays it out: names in the first column, stock
    in the second. *)
Definition inventory_layout (sh : sheet F) (hdr : row F) (rows : list (row F)) : Prop :=
  sh = (CText (lit "Item Name") :: CText (lit "Stock Qty") :: hdr) :: rows.

(** The stock of a product as the commit reads it: [int(curr)] of the
    "Stock Qty" cell of the first row with that name. *)
Definition stock_of (name : cell F) (sh : sheet F) : exn + Z :=
  match first_value name "Stock Qty" (get_all_records_pure sh) with
  | inl e => inl e
  | inr c => py_int c
  end.

Definition name_of (r : row F) : cell F := cell_at r 0.
Definition qty_of (r : row F) : cell F := cell_at r 1.

Definition row_of (name : cell F) (rows : list (row F)) : option nat :=
  find_index (fun c => cell_eqb c name) (map name_of rows).

(** One write of the loop, seen on the data rows. *)
Definition write_row (idx : nat) (v : cell F) (rows : list (row F)) : list (row F) :=
  set_nth [] idx (set_nth empty_cell 1 v (nth idx rows [])) rows.

(** The value a cell ends with: that of the last write to its row. *)
Definition last_write (k : nat) (ws : list (nat * cell F)) (c0 : cell F) : cell F :=
  fold_left (fun acc w => if (fst w =? k + 2)%nat then snd w else acc) ws c0.

Definition in_rows (rows : list (row F)) (w : nat * cell F) : Prop :=
  exists idx, fst w = (idx + 2)%nat /\ (idx < List.length rows)%nat.

Definition extends {A} (l l' : list A) : Prop := exists t, l' = l ++ t.

(** Between two states of a commit under way: the cart and the page are
    as they were, the two invoice sheets and the log have only grown. *)
Definition steady (s s' : St) : Prop :=
  cart s' = cart s /\ secrets s' = secrets s /\ out s' = out s /\
  extends (invoices_ws (db s)) (invoices_ws (db s')) /\
  extends (items_ws (db s)) (items_ws (db s')) /\
  extends (log s) (log s').

(** The part of [checkout] after the connection is made. *)
Definition commit (cust ts : text) (total : F) : M F unit :=
  ws_inv <- worksheet Invoices ;;
  ws_items <- worksheet Invoice_Items ;;
  ws_stock <- worksheet Inventory ;;
  rows <- get_all_values ws_inv ;;
  let inv_id := invoice_id_of rows in
  append_row ws_inv [CInt inv_id; CText cust; CText ts; CFloat total] ;;;
  stock_df <- get_all_records ws_stock ;;
  c <- gets cart ;;
  for_each c (commit_line ws_stock ws_items stock_df inv_id) ;;;
  c <- gets cart ;;
  pdf_bytes <- lift (create_pdf inv_id cust ts c total) ;;
  emit (StDownload (lit "Download PDF") pdf_bytes
          (lit "Invoice_" ++ str_int inv_id ++ lit ".pdf")) ;;;
  st_success (lit "Success!") ;;;
  set_cart [].

(** A step that keeps the state steady and can only raise. *)
Definition quiet {A} (m : M F A) : Prop := respects steady m /\ raises_only m.

Definition fails_quietly {A} (m : M F A) : Prop :=
  forall s sg s', m s = (inl sg, s') -> steady s s' /\ exists e, sg = Raise e.

(** The frame [get_inventory] builds from the sheet it reads. *)
Definition read_inventory (sh : sheet F) : exn + frame F :=
  let data := get_all_records_pure sh in
  match records data with
  | [] => inr (mkFrame inventory_columns [])
  | _ =>
      match map_column "Stock Qty" (fun c => CInt (to_stock c)) data with
      | inl e => inl e
      | inr df1 => map_column "Unit Price" (fun c => CFloat (to_price c)) df1
      end
  end.

Definition inventory_calls : list (call F) :=
  [Connect; Worksheet Inventory; GetAllRecords Inventory].

(** The script up to the cart section. *)
Definition stock_section (ev : event F) : M F unit :=
  df <- get_inventory ;;
  match records df with
  | [] => st_warning (lit "No items in stock.")
  | _ =>
      _ <- lift (column_of "Item Name" df) ;;
      match ev with
      | AddToCart it q => add_to_cart df it q
      | _ => ret tt
      end
  end.

(** The cart section. *)
Definition cart_section (ev : event F) : M F unit :=
  c <- gets cart ;;
  match c with
  | [] => ret tt
  | _ =>
      match ev with
      | ClearCart => set_cart [] ;;; st_rerun
      | _ => ret tt
      end ;;;
      let total := fsum (map subtotal c) in
      emit (StMetric (lit "Total") (lit "GHS " ++ lit (fmt_c2f total))) ;;;
      match ev with
      | ConfirmPrint cust ts => confirm_print cust ts total
      | _ => ret tt
      end
  end.

Definition no_items : message := StWarning (lit "No items in stock.").

(** A run of the tab in which "Confirm & Print" went through. *)
Definition checked_out (cust ts : text) (s s' : St) : Prop :=
  rerun (ConfirmPrint cust ts) s = (inr tt, s') /\
  In (StSuccess (lit "Success!")) (out s').

(** The sheet the commit works from: the Inventory as it is read once,
    after the header row of the invoice is appended. *)
Definition snapshot (s : St) : frame F := get_all_records_pure (inventory_ws (db s)).


Definition is_inventory_read (c : call F) : bool :=
  match c with
  | GetAllRecords Inventory => true
  | _ => false
  end.

Definition is_stock_write (c : call F) : bool :=
  match c with
  | UpdateCell _ _ _ _ => true
  | _ => false
  end.

(** The sequence as section 4.4 of the specification words its step 4:
    the stock is read again for each cart line.  It is [checkout] with the
    reading moved into the loop, kept here to be compared with it. *)
Definition commit_line_rereading (ws_stock ws_items : ws_name) (inv_id : Z)
    (i : cart_line F) : M F unit :=
  stock_df <- get_all_records ws_stock ;;
  commit_line ws_stock ws_items stock_df inv_id i.

Definition checkout_rereading (cust ts : text) (total : F) : M F unit :=
  get_db_connection ;;;
  ws_inv <- worksheet Invoices ;;
  ws_items <- worksheet Invoice_Items ;;
  ws_stock <- worksheet Inventory ;;
  rows <- get_all_values ws_inv ;;
  let inv_id := invoice_id_of rows in
  append_row ws_inv [CInt inv_id; CText cust; CText ts; CFloat total] ;;;
  c <- gets cart ;;
  for_each c (commit_line_rereading ws_stock ws_items inv_id) ;;;
  c <- gets cart ;;
  pdf_bytes <- lift (create_pdf inv_id cust ts c total) ;;
  emit (StDownload (lit "Download PDF") pdf_bytes
          (lit "Invoice_" ++ str_int inv_id ++ lit ".pdf")) ;;;
  st_success (lit "Success!") ;;;
  set_cart [].

(** The four cells the loop of [create_pdf] draws for a cart line. *)
Definition line_cells (i : cart_line F) : document :=
  [ Cell 90 10 (clean (cell_str (item i))) 1 0 "" false;
    Cell 30 10 (str_int (qty i)) 1 0 "C" false;
    Cell 35 10 (lit (fmt_2f (price i))) 1 0 "R" false;
    Cell 35 10 (lit (fmt_2f (subtotal i))) 1 1 "R" false ].

Definition fits (o : pdf_op) : bool := forallb latin1 (op_text o).

(** A cell of the body of the table: framed, and not filled as the cells
    of the column titles are. *)
Definition is_body_cell (o : pdf_op) : bool :=
  match o with
  | Cell _ _ _ border _ _ fill => (border =? 1) && negb fill
  | _ => false
  end.

(** The rows of the table: a body cell drawn with [ln=1] ends its row. *)
Fixpoint table_rows (d : document) (cur : list text) : list (list text) :=
  match d with
  | [] => []
  | Cell _ _ txt border ln _ fill :: d' =>
      if (border =? 1) && negb fill then
        if ln =? 1 then (cur ++ [txt]) :: table_rows d' []
        else table_rows d' (cur ++ [txt])
      else table_rows d' cur
  | _ :: d' => table_rows d' cur
  end.

Definition is_total_label (o : pdf_op) : bool :=
  match o with
  | Cell _ _ txt border _ _ _ => (border =? 0) && text_eqb txt (lit "GRAND TOTAL (GHS):")
  | _ => false
  end.

(** The text of the cell drawn next to the "GRAND TOTAL (GHS):" label. *)
Fixpoint grand_total (d : document) : option text :=
  match d with
  | [] => None
  | o :: d' =>
      if is_total_label o then
        match d' with
        | Cell _ _ txt _ _ _ _ :: _ => Some txt
        | _ => None
        end
      else grand_total d'
  end.

(** The row of the table a cart line should show as. *)
Definition line_texts (i : cart_line F) : list text :=
  [ clean (cell_str (item i)); str_int (qty i);
    lit (fmt_2f (price i)); lit (fmt_2f (subtotal i)) ].

(** The page after one more error message. *)
Definition with_error (t : text) (s : St) : St :=
  mkState (db s) (faults s) (log s) (secrets s) (cart s) (out s ++ [StError t]).

(** A run that tells the operator of a failure: an exception reaches the
    page, or an error message is shown. *)
Definition reports_failure (r : (signal + unit) * St) : Prop :=
  (exists e, fst r = inl (Raise e)) \/ exists t, In (StError t) (out (snd r)).

(** The header row of the Inventory sheet with its three columns, as
    [init_db] writes it, possibly followed by more cells. *)
Definition titles (hdr : row F) : row F :=
  CText (lit "Item Name") :: CText (lit "Stock Qty") :: CText (lit "Unit Price") :: hdr.

Definition price_of (r : row F) : cell F := cell_at r 2.


(** A session on a store that answers every call, credentials in place. *)
Definition answering (d : database F) (l : list (call F)) (c : list (cart_line F))
    (o : list message) : St :=
  mkState d [] l true c o.

(** The calls that change the spreadsheet. *)
Definition is_write (c : call F) : bool :=
  match c with
  | AppendRow _ _ | UpdateCell _ _ _ _ | DeleteRows _ _ => true
  | _ => false
  end.

(** The store is as it was, and no call made in between changes it. *)
Definition keeps_store (s s' : St) : Prop :=
  db s' = db s /\
  exists made, log s' = log s ++ made /\ Forall (fun c => is_write c = false) made.

(** The number of rows that carry a name. *)
Definition occurrences (name : cell F) (rows : list (row F)) : nat :=
  List.length (filter (fun r => cell_eqb (name_of r) name) rows).

(** The state after the call [c] failed with [msg]. *)
Definition refused (s : St) : St :=
  mkState (db s) (tl (faults s)) (log s) (secrets s) (cart s) (out s).





End Vocabulary.

(** * Properties *)

(** ** Lists, text and cells *)

Lemma nth_set_nth_eq {A} (d : A) (i : nat) (v : A) (l : list A) :
  nth i (set_nth d i v l) d = v.
Proof.
  revert l; induction i as [|i IH]; intros [|x l]; simpl; auto.
Qed.

Lemma nth_set_nth_neq {A} (d : A) (i j : nat) (v : A) (l : list A) :
  i <> j -> nth j (set_nth d i v l) d = nth j l d.
Proof.
  revert j l; induction i as [|i IH]; intros [|j] [|x l] Hij; simpl; try easy.
  - destruct j; reflexivity.
  - rewrite IH by lia. destruct j; reflexivity.
  - apply IH; lia.
Qed.

Lemma length_set_nth {A} (d : A) (i : nat) (v : A) (l : list A) :
  (i < List.length l)%nat -> List.length (set_nth d i v l) = List.length l.
Proof.
  revert l; induction i as [|i IH]; intros [|x l] Hi; simpl in *; try lia.
  rewrite IH; lia.
Qed.

Lemma find_index_lt {A} (p : A -> bool) (l : list A) (i : nat) :
  find_index p l = Some i -> (i < List.length l)%nat.
Proof.
  revert i; induction l as [|x l IH]; simpl; intros i Hi; [discriminate|].
  destruct (p x).
  - injection Hi as <-; lia.
  - destruct (find_index p l) as [j|]; [|discriminate].
    injection Hi as <-. specialize (IH j eq_refl). lia.
Qed.

Lemma find_index_none {A} (p : A -> bool) (l : list A) :
  find_index p l = None <-> forall x, In x l -> p x = false.
Proof.
  induction l as [|x l IH]; simpl.
  - split; [intros _ y []|reflexivity].
  - destruct (p x) eqn:Px.
    + split; [discriminate|]. intros Hall. rewrite (Hall x) in Px by auto. discriminate.
    + destruct (find_index p l); simpl.
      * split; [discriminate|]. intros Hall.
        assert (Hn : @None nat = None) by reflexivity.
        destruct IH as [_ IH]. discriminate IH. intros y Hy; apply Hall; auto.
      * split; [|reflexivity]. intros _ y [<-|Hy]; [assumption|].
        apply IH; auto.
Qed.

Lemma text_eqb_refl (t : text) : text_eqb t t = true.
Proof. induction t as [|c t IH]; simpl; [reflexivity|]. now rewrite N.eqb_refl. Qed.

Lemma text_eqb_eq (a b : text) : text_eqb a b = true <-> a = b.
Proof.
  split; [|intros ->; apply text_eqb_refl].
  revert b; induction a as [|x a IH]; intros [|y b]; simpl; try easy.
  intros Hab. apply andb_true_iff in Hab as [Hxy Hab].
  apply N.eqb_eq in Hxy. f_equal; auto.
Qed.

Lemma lit_latin1 (s : string) : forallb latin1 (lit s) = true.
Proof.
  unfold lit. induction s as [|a s IH]; simpl; [reflexivity|].
  rewrite IH, andb_true_r. unfold latin1. apply N.ltb_lt.
  apply N_ascii_bounded.
Qed.

Lemma clean_latin1 (t : text) : forallb latin1 (clean t) = true.
Proof.
  induction t as [|c t IH]; simpl; [reflexivity|].
  rewrite IH, andb_true_r. destruct (latin1 c) eqn:Hc; [assumption|reflexivity].
Qed.

Lemma forallb_latin1_app (a b : text) :
  forallb latin1 (a ++ b) = forallb latin1 a && forallb latin1 b.
Proof. apply forallb_app. Qed.

(** ** Running the script monad *)

Section Runs.

Context {F : Type} `{PyFloat F}.

Local Abbreviation St := (state F).

Lemma bind_run {A B} (m : M F A) (k : A -> M F B) (s : St) :
  bind m k s = match m s with
               | (inl sg, s') => (inl sg, s')
               | (inr a, s') => k a s'
               end.
Proof. reflexivity. Qed.

Lemma bind_inr {A B} (m : M F A) (k : A -> M F B) (s s' : St) (b : B) :
  bind m k s = (inr b, s') ->
  exists a s1, m s = (inr a, s1) /\ k a s1 = (inr b, s').
Proof.
  rewrite bind_run. destruct (m s) as [[sg|a] s1]; [discriminate|].
  intros Hk. now exists a, s1.
Qed.

Lemma bind_inl {A B} (m : M F A) (k : A -> M F B) (s s' : St) (sg : signal) :
  bind m k s = (inl sg, s') ->
  m s = (inl sg, s') \/ exists a s1, m s = (inr a, s1) /\ k a s1 = (inl sg, s').
Proof.
  rewrite bind_run. destruct (m s) as [[sg0|a] s1].
  - intros Hk; left. injection Hk as -> ->. reflexivity.
  - intros Hk; right. now exists a, s1.
Qed.

Lemma request_inr (c : call F) (s s' : St) (u : unit) :
  request c s = (inr u, s') -> s' = logged c s.
Proof.
  unfold request, logged. destruct (faults s) as [|[msg|] rest]; simpl; congruence.
Qed.

Lemma request_inl (c : call F) (s s' : St) (sg : signal) :
  request c s = (inl sg, s') ->
  exists msg, sg = Raise (APIError msg) /\ hd_error (faults s) = Some (Some msg) /\
    s' = mkState (db s) (tl (faults s)) (log s) (secrets s) (cart s) (out s).
Proof.
  unfold request. destruct (faults s) as [|[msg|] rest]; simpl; try discriminate.
  intros Hr. injection Hr as <- <-. now exists msg.
Qed.

Section Respects.

Variable R : St -> St -> Prop.
Hypothesis R_refl : forall s, R s s.
Hypothesis R_trans : forall s1 s2 s3, R s1 s2 -> R s2 s3 -> R s1 s3.

Lemma respects_ret {A} (a : A) : respects R (ret a).
Proof. intros s r s' Hr. injection Hr as _ <-. apply R_refl. Qed.

Lemma respects_throw {A} (sg : signal) : respects R (@throw F A sg).
Proof. intros s r s' Hr. injection Hr as _ <-. apply R_refl. Qed.

Lemma respects_lift {A} (x : exn + A) : respects R (lift x).
Proof. destruct x; [apply respects_throw|apply respects_ret]. Qed.

Lemma respects_gets {A} (f : St -> A) : respects R (gets f).
Proof. intros s r s' Hr. injection Hr as _ <-. apply R_refl. Qed.

Lemma respects_bind {A B} (m : M F A) (k : A -> M F B) :
  respects R m -> (forall a, respects R (k a)) -> respects R (bind m k).
Proof.
  intros Hm Hk s r s'. rewrite bind_run.
  destruct (m s) as [[sg|a] s1] eqn:Em.
  - intros Hr. injection Hr as <- <-. eapply Hm; eassumption.
  - intros Hr. eapply R_trans; [eapply Hm; eassumption|eapply Hk; eassumption].
Qed.

Lemma respects_try_except {A} (body : M F A) (handler : exn -> M F A) :
  respects R body -> (forall e, respects R (handler e)) ->
  respects R (try_except body handler).
Proof.
  intros Hb Hh s r s'. unfold try_except.
  destruct (body s) as [[[e| |]|a] s1] eqn:Eb; intros Hr;
    try (injection Hr as <- <-; eapply Hb; eassumption).
  eapply R_trans; [eapply Hb; eassumption|eapply Hh; eassumption].
Qed.

Lemma respects_try_bare {A} (body handler : M F A) :
  respects R body -> respects R handler -> respects R (try_bare body handler).
Proof.
  intros Hb Hh s r s'. unfold try_bare.
  destruct (body s) as [[sg|a] s1] eqn:Eb; intros Hr.
  - eapply R_trans; [eapply Hb; eassumption|eapply Hh; eassumption].
  - injection Hr as <- <-; eapply Hb; eassumption.
Qed.

Lemma respects_for_each {A} (l : list A) (body : A -> M F unit) :
  (forall x, respects R (body x)) -> respects R (for_each l body).
Proof.
  intros Hb. induction l as [|x l IH]; simpl.
  - apply respects_ret.
  - apply respects_bind; auto.
Qed.

End Respects.

Lemma never_fails_raises_only {A} (m : M F A) : never_fails m -> raises_only m.
Proof. intros Hm s sg s' Hr. now apply Hm in Hr. Qed.

Lemma raises_only_bind {A B} (m : M F A) (k : A -> M F B) :
  raises_only m -> (forall a, raises_only (k a)) -> raises_only (bind m k).
Proof.
  intros Hm Hk s sg s' Hr. apply bind_inl in Hr as [Hr|(a & s1 & _ & Hr)].
  - eapply Hm; eassumption.
  - eapply Hk; eassumption.
Qed.

Lemma raises_only_lift {A} (x : exn + A) : raises_only (lift (F:=F) x).
Proof.
  destruct x as [e|a]; intros s sg s' Hr; simpl in Hr.
  - injection Hr as <- _. now exists e.
  - discriminate.
Qed.

Lemma raises_only_request (c : call F) : raises_only (request c).
Proof.
  intros s sg s' Hr. apply request_inl in Hr as (msg & -> & _). now eexists.
Qed.

Lemma never_fails_ret {A} (a : A) : never_fails (ret (F:=F) a).
Proof. intros s sg s'; discriminate. Qed.

Lemma never_fails_gets {A} (f : St -> A) : never_fails (gets f).
Proof. intros s sg s'; discriminate. Qed.

Lemma never_fails_modify (f : St -> St) : never_fails (modify f).
Proof. intros s sg s'; discriminate. Qed.

Lemma never_fails_bind {A B} (m : M F A) (k : A -> M F B) :
  never_fails m -> (forall a, never_fails (k a)) -> never_fails (bind m k).
Proof.
  intros Hm Hk s sg s' Hr. apply bind_inl in Hr as [Hr|(a & s1 & _ & Hr)].
  - now apply Hm in Hr.
  - now apply Hk in Hr.
Qed.

Lemma raises_only_for_each {A} (l : list A) (body : A -> M F unit) :
  (forall x, raises_only (body x)) -> raises_only (for_each l body).
Proof.
  intros Hb. induction l as [|x l IH]; simpl.
  - apply never_fails_raises_only, never_fails_ret.
  - apply raises_only_bind; auto.
Qed.

(** *** Reading leaves the store and the cart alone *)

Lemma reads_only_refl (s : St) : reads_only s s.
Proof. now repeat split. Qed.

Lemma reads_only_trans (s1 s2 s3 : St) : reads_only s1 s2 -> reads_only s2 s3 -> reads_only s1 s3.
Proof. unfold reads_only; intuition congruence. Qed.

Lemma reads_request (c : call F) : respects reads_only (request c).
Proof.
  intros s r s'. unfold request.
  destruct (faults s) as [|[msg|] rest]; intros Hr; injection Hr as _ <-;
    now repeat split.
Qed.

Lemma reads_emit (m : message) : respects reads_only (emit (F:=F) m).
Proof. intros s r s' Hr. injection Hr as _ <-. now repeat split. Qed.

Ltac reads_step :=
  first [ apply respects_bind; [apply reads_only_trans| |intros ?]
        | apply reads_request
        | apply reads_emit
        | apply respects_ret; apply reads_only_refl
        | apply respects_throw; apply reads_only_refl
        | apply respects_lift; apply reads_only_refl
        | apply respects_gets; apply reads_only_refl ].

Lemma reads_get_db_connection : respects reads_only (get_db_connection (F:=F)).
Proof.
  unfold get_db_connection.
  apply respects_try_except; [apply reads_only_trans| |intros e].
  - apply respects_bind; [apply reads_only_trans|apply respects_gets, reads_only_refl|].
    intros [|]; unfold st_error, st_stop; repeat reads_step.
  - unfold st_error, st_stop; repeat reads_step.
Qed.

Lemma reads_worksheet n : respects reads_only (worksheet (F:=F) n).
Proof. unfold worksheet; repeat reads_step. Qed.

Lemma reads_get_all_records n : respects reads_only (get_all_records (F:=F) n).
Proof. unfold get_all_records; repeat reads_step. Qed.

Lemma reads_get_all_values n : respects reads_only (get_all_values (F:=F) n).
Proof. unfold get_all_values; repeat reads_step. Qed.

Lemma reads_get_inventory : respects reads_only (get_inventory (F:=F)).
Proof.
  unfold get_inventory.
  apply respects_bind; [apply reads_only_trans|apply reads_get_db_connection|intros _].
  apply respects_bind; [apply reads_only_trans|apply reads_worksheet|intros ws].
  apply respects_bind; [apply reads_only_trans|apply reads_get_all_records|intros data].
  destruct (records data); repeat reads_step.
Qed.

(** [get_db_connection] either logs the connection or stops the script
    after an error message. *)
Lemma get_db_connection_inr (s s' : St) (u : unit) :
  get_db_connection s = (inr u, s') -> secrets s = true /\ s' = logged Connect s.
Proof.
  unfold get_db_connection, try_except. rewrite bind_run. simpl.
  destruct (secrets s) eqn:Hs.
  - destruct (request Connect s) as [[[e| |]|[]] s1] eqn:Er; simpl; try discriminate.
    intros Hr. assert (s1 = s') as -> by congruence.
    split; [reflexivity|]. exact (request_inr _ _ _ _ Er).
  - discriminate.
Qed.

Lemma get_db_connection_inl (s s' : St) (sg : signal) :
  get_db_connection s = (inl sg, s') ->
  sg = StopScript /\ db s' = db s /\ cart s' = cart s /\ log s' = log s /\
  (secrets s = true ->
   exists msg, hd_error (faults s) = Some (Some msg) /\
     out s' = out s ++ [StError (cross_mark ++ lit " Connection Error: " ++ msg)]).
Proof.
  unfold get_db_connection, try_except. rewrite bind_run. simpl.
  destruct (secrets s) eqn:Hs.
  - destruct (request Connect s) as [[[e| |]|[]] s1] eqn:Er; simpl.
    + apply request_inl in Er as (msg & [= ->] & Hf & ->).
      intros Hr. injection Hr as <- <-. simpl. repeat split. intros _. now exists msg.
    + now apply request_inl in Er as (msg & [=] & _).
    + now apply request_inl in Er as (msg & [=] & _).
    + discriminate.
  - intros Hr. injection Hr as <- <-. simpl. repeat split. discriminate.
Qed.

(** *** The calls that write *)

Lemma append_row_inr n (r : row F) (s s' : St) (u : unit) :
  append_row n r s = (inr u, s') ->
  s' = put_db (with_worksheet n (fun sh => sh ++ [r]) (db s)) (logged (AppendRow n r) s).
Proof.
  unfold append_row. intros Hr. apply bind_inr in Hr as ([] & s1 & Hq & Hw).
  apply request_inr in Hq as ->. injection Hw as _ <-. reflexivity.
Qed.

Lemma update_cell_inr n (r c : nat) (v : cell F) (s s' : St) (u : unit) :
  update_cell n r c v s = (inr u, s') ->
  s' = put_db (with_worksheet n (update_cell_pure r c v) (db s)) (logged (UpdateCell n r c v) s).
Proof.
  unfold update_cell. intros Hr. apply bind_inr in Hr as ([] & s1 & Hq & Hw).
  apply request_inr in Hq as ->. injection Hw as _ <-. reflexivity.
Qed.

Lemma lift_inr {A} (x : exn + A) (a : A) (s s' : St) :
  lift x s = (inr a, s') -> x = inr a /\ s' = s.
Proof. destruct x as [e|b]; simpl; [discriminate|]. intros Hr. now injection Hr as -> ->. Qed.

Lemma lift_inl {A} (x : exn + A) (sg : signal) (s s' : St) :
  lift x s = (inl sg, s') -> exists e, x = inl e /\ sg = Raise e /\ s' = s.
Proof.
  destruct x as [e|b]; simpl; [|discriminate].
  intros Hr. injection Hr as <- <-. now exists e.
Qed.

Lemma commit_line_inr (df : frame F) (inv_id : Z) (i : cart_line F) (s s' : St) (u : unit) :
  commit_line Inventory Invoice_Items df inv_id i s = (inr u, s') ->
  exists w, stock_write df i = inr w /\
    inventory_ws (db s') = apply_write (inventory_ws (db s)) w /\
    invoices_ws (db s') = invoices_ws (db s) /\
    items_ws (db s') = items_ws (db s) ++ [line_row inv_id i] /\
    log s' = log s ++ line_calls inv_id i w /\
    cart s' = cart s /\ out s' = out s /\ secrets s' = secrets s.
Proof.
  unfold commit_line. intros Hr.
  apply bind_inr in Hr as (w & s1 & Hw & Hr). apply lift_inr in Hw as [Hw ->].
  apply bind_inr in Hr as ([] & s2 & Hu & Ha).
  apply update_cell_inr in Hu as ->. apply append_row_inr in Ha as ->.
  exists w. simpl. rewrite <- app_assoc. now repeat split.
Qed.

Lemma for_each_commit_inr (df : frame F) (inv_id : Z) (c : list (cart_line F)) :
  forall (s s' : St) (u : unit),
  for_each c (commit_line Inventory Invoice_Items df inv_id) s = (inr u, s') ->
  exists ws, Forall2 (fun i w => stock_write df i = inr w) c ws /\
    inventory_ws (db s') = fold_left apply_write ws (inventory_ws (db s)) /\
    invoices_ws (db s') = invoices_ws (db s) /\
    items_ws (db s') = items_ws (db s) ++ map (line_row inv_id) c /\
    log s' = log s ++ flat_map (fun p => line_calls inv_id (fst p) (snd p)) (combine c ws) /\
    cart s' = cart s /\ out s' = out s /\ secrets s' = secrets s.
Proof.
  induction c as [|i c IH]; simpl; intros s s' u Hr.
  - injection Hr as _ <-. exists []. simpl. rewrite !app_nil_r. now repeat split.
  - apply bind_inr in Hr as ([] & s1 & Hi & Hr).
    apply commit_line_inr in Hi as (w & Hw & Hinv & Hhdr & Hit & Hlog & Hc & Ho & Hs).
    apply IH in Hr as (ws & Hws & Hinv' & Hhdr' & Hit' & Hlog' & Hc' & Ho' & Hs').
    exists (w :: ws). simpl.
    rewrite Hinv', Hinv, Hhdr', Hhdr, Hit', Hit, Hlog', Hlog, Hc', Hc, Ho', Ho, Hs', Hs.
    rewrite <- !app_assoc. simpl. repeat split; auto.
Qed.

Lemma worksheet_inr n (s s' : St) (w : ws_name) :
  worksheet n s = (inr w, s') -> w = n /\ s' = logged (Worksheet n) s.
Proof.
  unfold worksheet. intros Hr. apply bind_inr in Hr as ([] & s1 & Hq & Hw).
  apply request_inr in Hq as ->. now injection Hw as <- <-.
Qed.

Lemma get_all_values_inr n (s s' : St) (rows : sheet F) :
  get_all_values n s = (inr rows, s') ->
  rows = worksheet_of n (db s) /\ s' = logged (GetAllValues n) s.
Proof.
  unfold get_all_values. intros Hr. apply bind_inr in Hr as ([] & s1 & Hq & Hw).
  apply request_inr in Hq as ->. now injection Hw as <- <-.
Qed.

Lemma get_all_records_inr n (s s' : St) (df : frame F) :
  get_all_records n s = (inr df, s') ->
  df = get_all_records_pure (worksheet_of n (db s)) /\ s' = logged (GetAllRecords n) s.
Proof.
  unfold get_all_records. intros Hr. apply bind_inr in Hr as ([] & s1 & Hq & Hw).
  apply request_inr in Hq as ->. now injection Hw as <- <-.
Qed.

(** Everything a checkout that ran to its end has done. *)
Lemma checkout_inr (cust ts : text) (total : F) (s s' : St) (u : unit) :
  checkout cust ts total s = (inr u, s') ->
  let inv_id := invoice_id_of (invoices_ws (db s)) in
  let df := get_all_records_pure (inventory_ws (db s)) in
  exists ws doc,
    Forall2 (fun i w => stock_write df i = inr w) (cart s) ws /\
    create_pdf inv_id cust ts (cart s) total = inr doc /\
    inventory_ws (db s') = fold_left apply_write ws (inventory_ws (db s)) /\
    invoices_ws (db s') = invoices_ws (db s) ++ [invoice_row inv_id cust ts total] /\
    items_ws (db s') = items_ws (db s) ++ map (line_row inv_id) (cart s) /\
    log s' = log s ++ opening_calls inv_id cust ts total
               ++ flat_map (fun p => line_calls inv_id (fst p) (snd p)) (combine (cart s) ws) /\
    cart s' = [] /\
    out s' = out s ++ [ StDownload (lit "Download PDF") doc
                          (lit "Invoice_" ++ str_int inv_id ++ lit ".pdf");
                        StSuccess (lit "Success!") ] /\
    secrets s = true.
Proof.
  unfold checkout. intros Hr.
  apply bind_inr in Hr as ([] & s1 & Hc & Hr). apply get_db_connection_inr in Hc as [Hsec ->].
  apply bind_inr in Hr as (w1 & s2 & Hw & Hr). apply worksheet_inr in Hw as [-> ->].
  apply bind_inr in Hr as (w2 & s3 & Hw & Hr). apply worksheet_inr in Hw as [-> ->].
  apply bind_inr in Hr as (w3 & s4 & Hw & Hr). apply worksheet_inr in Hw as [-> ->].
  apply bind_inr in Hr as (rows & s5 & Hv & Hr). apply get_all_values_inr in Hv as [-> ->].
  apply bind_inr in Hr as ([] & s6 & Ha & Hr). apply append_row_inr in Ha as ->.
  apply bind_inr in Hr as (df & s7 & Hd & Hr). apply get_all_records_inr in Hd as [-> ->].
  apply bind_inr in Hr as (c & s8 & Hg & Hr). injection Hg as <- <-.
  apply bind_inr in Hr as ([] & s9 & Hl & Hr).
  apply for_each_commit_inr in Hl as (ws & Hws & Hinv & Hhdr & Hit & Hlog & Hc & Ho & Hs).
  apply bind_inr in Hr as (c' & s10 & Hg & Hr). injection Hg as <- <-.
  apply bind_inr in Hr as (doc & s11 & Hp & Hr). apply lift_inr in Hp as [Hp ->].
  apply bind_inr in Hr as ([] & s12 & He & Hr). injection He as <-.
  apply bind_inr in Hr as ([] & s13 & He & Hr). injection He as <-.
  injection Hr as _ <-.
  simpl in *. rewrite Hc in Hp. exists ws, doc.
  rewrite Hinv, Hhdr, Hit, Hlog, Ho. unfold opening_calls.
  rewrite <- !app_assoc. simpl. repeat split; auto.
Qed.

End Runs.

(** ** The stock column under the writes of a commit *)

Section Stock.

Context {F : Type} `{PyFloat F}.

Lemma first_index_layout (sh : sheet F) hdr rows name :
  inventory_layout sh hdr rows -> rows <> [] ->
  first_index name (get_all_records_pure sh) =
    match row_of name rows with
    | Some i => inr i
    | None => inl (IndexError "list index out of range")
    end.
Proof.
  intros -> Hrows. destruct rows as [|r rows]; [contradiction|]. reflexivity.
Qed.

Lemma first_value_layout (sh : sheet F) hdr rows name :
  inventory_layout sh hdr rows -> rows <> [] ->
  first_value name "Stock Qty" (get_all_records_pure sh) =
    match row_of name rows with
    | Some i => inr (qty_of (nth i rows []))
    | None => inl (IndexError "index 0 is out of bounds for axis 0 with size 0")
    end.
Proof.
  intros -> Hrows. destruct rows as [|r rows]; [contradiction|].
  unfold first_value, column_of, col_index, row_of. simpl columns. simpl records.
  change (find_index (is_key "Item Name") _) with (Some 0%nat).
  change (find_index (is_key "Stock Qty") _) with (Some 1%nat).
  cbv beta iota.
  destruct (find_index _ _) as [i|]; [|reflexivity].
  f_equal. change empty_cell with (qty_of (F:=F) []) at 1. apply map_nth.
Qed.

Lemma stock_write_needs_records (sh : sheet F) (i : cart_line F) w :
  stock_write (get_all_records_pure sh) i = inr w -> exists h r rows, sh = h :: r :: rows.
Proof.
  destruct sh as [|h [|r rows]]; try discriminate. intros _. now exists h, r, rows.
Qed.

Lemma apply_write_rows (h : row F) rows idx v :
  apply_write (h :: rows) ((idx + 2)%nat, v) = h :: write_row idx v rows.
Proof.
  unfold apply_write, update_cell_pure, write_row. simpl fst. simpl snd.
  replace (pred (idx + 2)) with (S idx) by lia. reflexivity.
Qed.

Lemma map_set_nth_same {A B} (f : A -> B) (d : A) (i : nat) (x : A) (l : list A) :
  (i < List.length l)%nat -> f x = f (nth i l d) ->
  map f (set_nth d i x l) = map f l.
Proof.
  revert l; induction i as [|i IH]; intros [|y l] Hi Hx; simpl in *; try lia.
  - now rewrite Hx.
  - rewrite IH; auto; lia.
Qed.

Lemma write_row_length idx (v : cell F) rows :
  (idx < List.length rows)%nat -> List.length (write_row idx v rows) = List.length rows.
Proof. intros Hi. unfold write_row. now apply length_set_nth. Qed.

Lemma write_row_names idx (v : cell F) rows :
  (idx < List.length rows)%nat -> map name_of (write_row idx v rows) = map name_of rows.
Proof.
  intros Hi. unfold write_row. apply map_set_nth_same; [assumption|].
  unfold name_of, cell_at. now rewrite nth_set_nth_neq.
Qed.

Lemma write_row_qty idx (v : cell F) rows k :
  qty_of (nth k (write_row idx v rows) []) =
    if (k =? idx)%nat then v else qty_of (nth k rows []).
Proof.
  unfold write_row. destruct (Nat.eqb_spec k idx) as [->|Hk].
  - rewrite nth_set_nth_eq. unfold qty_of, cell_at. apply nth_set_nth_eq.
  - rewrite nth_set_nth_neq by auto. reflexivity.
Qed.

Lemma fold_writes (h : row F) (ws : list (nat * cell F)) :
  forall rows, Forall (in_rows rows) ws ->
  exists rows',
    fold_left apply_write ws (h :: rows) = h :: rows' /\
    List.length rows' = List.length rows /\
    map name_of rows' = map name_of rows /\
    forall k, qty_of (nth k rows' []) = last_write k ws (qty_of (nth k rows [])).
Proof.
  induction ws as [|[r v] ws IH]; intros rows Hws.
  - exists rows. now repeat split.
  - inversion Hws as [|w ws' (idx & Hr & Hidx) Hrest]; subst. simpl in Hr. subst r.
    simpl fold_left. rewrite apply_write_rows.
    destruct (IH (write_row idx v rows)) as (rows' & Hf & Hl & Hn & Hq).
    { eapply Forall_impl; [|exact Hrest].
      intros w (j & Hj & Hlt). exists j. now rewrite write_row_length. }
    exists rows'. rewrite Hf, Hl, Hn, write_row_length, write_row_names by assumption.
    repeat split. intros k. rewrite Hq, write_row_qty. unfold last_write. simpl fold_left.
    replace (idx + 2 =? k + 2)%nat with (k =? idx)%nat; [reflexivity|].
    destruct (Nat.eqb_spec k idx), (Nat.eqb_spec (idx + 2) (k + 2)); auto; lia.
Qed.

Lemma last_write_none k (ws : list (nat * cell F)) c0 :
  Forall (fun w => fst w <> (k + 2)%nat) ws -> last_write k ws c0 = c0.
Proof.
  unfold last_write. revert c0. induction ws as [|w ws IH]; intros c0 Hws; [reflexivity|].
  inversion Hws as [|w' ws' Hw Hrest]; subst. simpl.
  destruct (Nat.eqb_spec (fst w) (k + 2)); [contradiction|]. now apply IH.
Qed.

Lemma last_write_app k (ws1 ws2 : list (nat * cell F)) v c0 :
  Forall (fun w => fst w <> (k + 2)%nat) ws2 ->
  last_write k (ws1 ++ ((k + 2)%nat, v) :: ws2) c0 = v.
Proof.
  intros Hws. unfold last_write. rewrite fold_left_app. simpl.
  rewrite Nat.eqb_refl. now apply last_write_none.
Qed.

(** What the loop body works out for a line, on a sheet in that layout. *)
Lemma stock_write_layout (sh : sheet F) hdr rows (j : cart_line F) w :
  inventory_layout sh hdr rows -> rows <> [] ->
  stock_write (get_all_records_pure sh) j = inr w ->
  exists idx curr,
    row_of (item j) rows = Some idx /\
    first_index (item j) (get_all_records_pure sh) = inr idx /\
    py_int (qty_of (nth idx rows [])) = inr curr /\
    w = ((idx + 2)%nat, CInt (curr - qty j)).
Proof.
  intros Hlay Hrows. unfold stock_write.
  rewrite (first_index_layout _ _ _ _ Hlay Hrows), (first_value_layout _ _ _ _ Hlay Hrows).
  destruct (row_of (item j) rows) as [idx|]; [|discriminate].
  destruct (py_int (qty_of (nth idx rows []))) as [e|curr] eqn:Hcur; [discriminate|].
  intros Hw. injection Hw as <-. now exists idx, curr.
Qed.

Lemma row_of_lt (name : cell F) rows idx : row_of name rows = Some idx -> (idx < List.length rows)%nat.
Proof.
  unfold row_of. intros Hi. apply find_index_lt in Hi. now rewrite length_map in Hi.
Qed.

(** After the writes of a commit, the stock of a line's product is what
    the sheet held before the commit minus the quantity of that line,
    provided no later line of the cart writes the same row. *)
Lemma stock_after_writes (sh : sheet F) hdr rows (l1 l2 : list (cart_line F)) (i : cart_line F) ws :
  inventory_layout sh hdr rows ->
  Forall2 (fun j w => stock_write (get_all_records_pure sh) j = inr w) (l1 ++ i :: l2) ws ->
  (forall j, In j l2 ->
     first_index (item j) (get_all_records_pure sh)
       <> first_index (item i) (get_all_records_pure sh)) ->
  exists before,
    stock_of (item i) sh = inr before /\
    stock_of (item i) (fold_left apply_write ws sh) = inr (before - qty i).
Proof.
  intros Hlay Hall Hlast.
  assert (Hrows : rows <> []).
  { apply Forall2_app_inv_l in Hall as (ws1 & ws' & _ & Hi & _).
    inversion Hi as [|x w l ws2 Hw _]; subst.
    apply stock_write_needs_records in Hw as (h & r & rows0 & Hsh).
    red in Hlay. rewrite Hlay in Hsh. injection Hsh as _ ->. discriminate. }
  assert (Hin : Forall (in_rows rows) ws).
  { clear Hlast. revert Hall. generalize (l1 ++ i :: l2). intros c Hall.
    induction Hall as [|j w c ws Hw _ IH]; constructor; [|exact IH].
    destruct (stock_write_layout _ _ _ _ _ Hlay Hrows Hw) as (idx & curr & Hr & _ & _ & ->).
    exists idx. split; [reflexivity|]. eapply row_of_lt; eassumption. }
  apply Forall2_app_inv_l in Hall as (ws1 & ws' & _ & Hi & ->).
  inversion Hi as [|x w l ws2 Hw Hl2]; subst.
  destruct (stock_write_layout _ _ _ _ _ Hlay Hrows Hw) as (idx & curr & Hr & Hfi & Hcur & ->).
  assert (Hne : Forall (fun w' => fst w' <> (idx + 2)%nat) ws2).
  { clear Hin Hi. induction Hl2 as [|j w' l2 ws2 Hw' _ IH]; constructor.
    - destruct (stock_write_layout _ _ _ _ _ Hlay Hrows Hw') as (idx' & curr' & _ & Hfj & _ & ->).
      simpl. intros Heq. apply (Hlast j (or_introl eq_refl)).
      rewrite Hfj, Hfi. f_equal. lia.
    - apply IH. intros j' Hj'. apply Hlast. now right. }
  exists curr. split.
  - unfold stock_of. rewrite (first_value_layout _ _ _ _ Hlay Hrows), Hr. exact Hcur.
  - red in Hlay. subst sh.
    destruct (fold_writes (CText (lit "Item Name") :: CText (lit "Stock Qty") :: hdr)
                _ rows Hin) as (rows' & Hf & Hlen & Hnames & Hqty).
    unfold sheet, row in *. rewrite Hf.
    assert (Hrows' : rows' <> []).
    { destruct rows'; [|discriminate]. destruct rows; [contradiction|discriminate]. }
    unfold stock_of. rewrite (first_value_layout _ hdr rows' _ eq_refl Hrows').
    unfold row_of, sheet, row in *.
    rewrite Hnames, Hr, Hqty, last_write_app by assumption.
    reflexivity.
Qed.

End Stock.

(** ** A checkout that fails *)

Section Failure.

Context {F : Type} `{PyFloat F}.

Local Abbreviation St := (state F).

Lemma extends_refl {A} (l : list A) : extends l l.
Proof. exists []. now rewrite app_nil_r. Qed.

Lemma extends_trans {A} (l1 l2 l3 : list A) : extends l1 l2 -> extends l2 l3 -> extends l1 l3.
Proof. intros [t ->] [u ->]. exists (t ++ u). now rewrite app_assoc. Qed.

Lemma extends_app {A} (l t : list A) : extends l (l ++ t).
Proof. now exists t. Qed.

Lemma steady_refl (s : St) : steady s s.
Proof. repeat split; apply extends_refl. Qed.

Lemma steady_trans (s1 s2 s3 : St) : steady s1 s2 -> steady s2 s3 -> steady s1 s3.
Proof.
  intros (Hc & Hs & Ho & Hi & Ht & Hl) (Hc' & Hs' & Ho' & Hi' & Ht' & Hl').
  repeat split; try congruence; eapply extends_trans; eassumption.
Qed.

Lemma steady_request (c : call F) : respects steady (request c).
Proof.
  intros s r s'. unfold request.
  destruct (faults s) as [|[msg|] rest]; intros Hr; injection Hr as _ <-;
    repeat split; simpl; try apply extends_refl; apply extends_app.
Qed.

Lemma steady_append n (r : row F) : respects steady (append_row n r).
Proof.
  unfold append_row.
  apply respects_bind; [apply steady_trans|apply steady_request|intros _].
  intros s x s' Hr. injection Hr as _ <-.
  destruct n; repeat split; simpl; try apply extends_refl; apply extends_app.
Qed.

Lemma steady_update_stock (r c : nat) (v : cell F) :
  respects steady (update_cell Inventory r c v).
Proof.
  unfold update_cell.
  apply respects_bind; [apply steady_trans|apply steady_request|intros _].
  intros s x s' Hr. injection Hr as _ <-.
  repeat split; simpl; apply extends_refl.
Qed.

Ltac steady_step :=
  first [ apply steady_request
        | apply steady_append
        | apply steady_update_stock
        | apply respects_bind; [apply steady_trans| |intros ?]
        | apply respects_ret; apply steady_refl
        | apply respects_lift; apply steady_refl
        | apply respects_gets; apply steady_refl ].

Lemma steady_commit_line df inv_id (i : cart_line F) :
  respects steady (commit_line Inventory Invoice_Items df inv_id i).
Proof. unfold commit_line. repeat steady_step. Qed.

Lemma raises_only_commit_line ws_stock ws_items df inv_id (i : cart_line F) :
  raises_only (commit_line ws_stock ws_items df inv_id i).
Proof.
  unfold commit_line, update_cell, append_row.
  repeat first [ apply raises_only_bind; [|intros ?]
               | apply raises_only_lift
               | apply raises_only_request
               | apply never_fails_raises_only, never_fails_modify ].
Qed.

Local Notation "x <- m ;; k" := (bind m (fun x => k))
  (at level 61, m at next level, right associativity).
Local Notation "m ;;; k" := (bind m (fun _ => k))
  (at level 61, right associativity).

Lemma checkout_commit cust ts total :
  checkout cust ts total = (get_db_connection ;;; commit cust ts total).
Proof. reflexivity. Qed.

Lemma fails_quietly_bind {A B} (m : M F A) (k : A -> M F B) (P : A -> Prop) :
  quiet m -> (forall s a s1, m s = (inr a, s1) -> P a) ->
  (forall a, P a -> fails_quietly (k a)) -> fails_quietly (bind m k).
Proof.
  intros [Hm Hr] HP Hk s sg s' Hb.
  apply bind_inl in Hb as [Hb|(a & s1 & Hm1 & Hb)].
  - split; [eapply Hm; eassumption|eapply Hr; eassumption].
  - destruct (Hk a (HP _ _ _ Hm1) _ _ _ Hb) as [Hst He].
    split; [|assumption]. eapply steady_trans; [eapply Hm; eassumption|assumption].
Qed.

Lemma quiet_worksheet n : quiet (worksheet (F:=F) n).
Proof.
  unfold worksheet. split.
  - repeat steady_step.
  - apply raises_only_bind; [apply raises_only_request|intros _].
    apply never_fails_raises_only, never_fails_ret.
Qed.

Lemma quiet_get_all_values n : quiet (get_all_values (F:=F) n).
Proof.
  unfold get_all_values. split.
  - repeat steady_step.
  - apply raises_only_bind; [apply raises_only_request|intros _].
    apply never_fails_raises_only, never_fails_gets.
Qed.

Lemma quiet_get_all_records n : quiet (get_all_records (F:=F) n).
Proof.
  unfold get_all_records. split.
  - repeat steady_step.
  - apply raises_only_bind; [apply raises_only_request|intros _].
    apply never_fails_raises_only, never_fails_gets.
Qed.

Lemma quiet_append n (r : row F) : quiet (append_row n r).
Proof.
  split; [apply steady_append|]. unfold append_row.
  apply raises_only_bind; [apply raises_only_request|intros _].
  apply never_fails_raises_only, never_fails_modify.
Qed.

Lemma quiet_gets {A} (f : St -> A) : quiet (gets f).
Proof.
  split; [apply respects_gets, steady_refl|apply never_fails_raises_only, never_fails_gets].
Qed.

Lemma quiet_lift {A} (x : exn + A) : quiet (lift (F:=F) x).
Proof. split; [apply respects_lift, steady_refl|apply raises_only_lift]. Qed.

Lemma quiet_loop df inv_id (c : list (cart_line F)) :
  quiet (for_each c (commit_line Inventory Invoice_Items df inv_id)).
Proof.
  split.
  - apply respects_for_each; [apply steady_refl|apply steady_trans|].
    intros i. apply steady_commit_line.
  - apply raises_only_for_each. intros i. apply raises_only_commit_line.
Qed.

(** A commit that fails leaves the cart and the page as they were, keeps
    the rows it has appended, and fails with an exception. *)
Lemma commit_fails_quietly cust ts total : fails_quietly (commit cust ts total).
Proof.
  unfold commit.
  apply fails_quietly_bind with (P := fun w => w = Invoices);
    [apply quiet_worksheet|intros s a s1 Hw; now apply worksheet_inr in Hw|intros ? ->].
  apply fails_quietly_bind with (P := fun w => w = Invoice_Items);
    [apply quiet_worksheet|intros s a s1 Hw; now apply worksheet_inr in Hw|intros ? ->].
  apply fails_quietly_bind with (P := fun w => w = Inventory);
    [apply quiet_worksheet|intros s a s1 Hw; now apply worksheet_inr in Hw|intros ? ->].
  apply fails_quietly_bind with (P := fun _ => True);
    [apply quiet_get_all_values|trivial|intros rows _].
  apply fails_quietly_bind with (P := fun _ => True);
    [apply quiet_append|trivial|intros _ _].
  apply fails_quietly_bind with (P := fun _ => True);
    [apply quiet_get_all_records|trivial|intros df _].
  apply fails_quietly_bind with (P := fun _ => True);
    [apply quiet_gets|trivial|intros c _].
  apply fails_quietly_bind with (P := fun _ => True);
    [apply quiet_loop|trivial|intros _ _].
  apply fails_quietly_bind with (P := fun _ => True);
    [apply quiet_gets|trivial|intros c' _].
  apply fails_quietly_bind with (P := fun _ => True);
    [apply quiet_lift|trivial|intros doc _].
  intros s sg s' Hr. exfalso. revert Hr. unfold st_success, emit, set_cart.
  repeat first [ apply never_fails_bind; [|intros ?] | apply never_fails_modify ].
Qed.

End Failure.

(** ** One run of the "New Sale" tab *)

Section Tab.

Context {F : Type} `{PyFloat F}.

Local Abbreviation St := (state F).

Local Notation "x <- m ;; k" := (bind m (fun x => k))
  (at level 61, m at next level, right associativity).
Local Notation "m ;;; k" := (bind m (fun _ => k))
  (at level 61, right associativity).

Lemma get_inventory_inr (s s1 : St) (df : frame F) :
  get_inventory s = (inr df, s1) ->
  read_inventory (inventory_ws (db s)) = inr df /\
  db s1 = db s /\ cart s1 = cart s /\ secrets s1 = secrets s /\ out s1 = out s /\
  log s1 = log s ++ inventory_calls.
Proof.
  unfold get_inventory. intros Hr.
  apply bind_inr in Hr as ([] & s2 & Hc & Hr). apply get_db_connection_inr in Hc as [_ ->].
  apply bind_inr in Hr as (ws & s3 & Hw & Hr). apply worksheet_inr in Hw as [-> ->].
  apply bind_inr in Hr as (data & s4 & Hd & Hr). apply get_all_records_inr in Hd as [-> ->].
  unfold logged in Hr. cbn [worksheet_of db] in Hr. unfold read_inventory. cbv zeta.
  destruct (records (get_all_records_pure (inventory_ws (db s)))) as [|r rs].
  - cbv [ret] in Hr. injection Hr as <- <-. simpl. rewrite <- !app_assoc. now repeat split.
  - apply bind_inr in Hr as (df1 & s5 & H1 & Hr). apply lift_inr in H1 as [-> ->].
    apply lift_inr in Hr as [-> ->]. simpl. rewrite <- !app_assoc. now repeat split.
Qed.

Lemma bind_assoc {A B C} (m : M F A) (f : A -> M F B) (g : B -> M F C) (s : St) :
  bind (bind m f) g s = bind m (fun x => bind (f x) g) s.
Proof. unfold bind. now destruct (m s) as [[sg|a] s1]. Qed.

Lemma tab2_sections ev (s : St) : tab2 ev s = (stock_section ev ;;; cart_section ev) s.
Proof. unfold stock_section. now rewrite bind_assoc. Qed.

(** Without a click on "Add to Cart" the stock section only reads. *)
Lemma stock_section_idle (ev : event F) (s s1 : St) (r : signal + unit) :
  (forall it q, ev <> AddToCart it q) ->
  stock_section ev s = (r, s1) ->
  reads_only s s1 /\
  (r = inr tt ->
   (out s1 = out s \/ out s1 = out s ++ [no_items]) /\
   log s1 = log s ++ inventory_calls).
Proof.
  intros Hev Hr. split.
  - revert Hr. generalize s r s1. change (respects reads_only (stock_section ev)).
    unfold stock_section.
    apply respects_bind; [apply reads_only_trans|apply reads_get_inventory|intros df].
    destruct (records df).
    + apply reads_emit.
    + apply respects_bind; [apply reads_only_trans|apply respects_lift, reads_only_refl|].
      intros _. destruct ev; try (apply respects_ret, reads_only_refl).
      now elim (Hev product quantity).
  - intros ->. unfold stock_section in Hr.
    apply bind_inr in Hr as (df & s2 & Hg & Hr).
    apply get_inventory_inr in Hg as (_ & _ & _ & _ & Ho & Hl).
    destruct (records df).
    + cbv [st_warning emit modify] in Hr. injection Hr as <-. simpl. rewrite Ho, Hl. auto.
    + apply bind_inr in Hr as (names & s3 & Hn & Hr). apply lift_inr in Hn as [_ ->].
      destruct ev; try (cbv [ret] in Hr; injection Hr as <-; rewrite Ho, Hl; auto).
      now elim (Hev product quantity).
Qed.

(** How a checkout can fail: with an exception, the page untouched, or
    stopped by [get_db_connection] after its error message.  Either way
    the cart is as it was and the rows appended so far are still there. *)
Lemma checkout_inl cust ts total (s s1 : St) (sg : signal) :
  checkout cust ts total s = (inl sg, s1) ->
  cart s1 = cart s /\
  extends (invoices_ws (db s)) (invoices_ws (db s1)) /\
  extends (items_ws (db s)) (items_ws (db s1)) /\
  extends (log s) (log s1) /\
  ((exists e, sg = Raise e /\ out s1 = out s) \/
   (sg = StopScript /\ db s1 = db s /\
    (secrets s = true ->
     exists msg, hd_error (faults s) = Some (Some msg) /\
       out s1 = out s ++ [StError (cross_mark ++ lit " Connection Error: " ++ msg)]))).
Proof.
  rewrite checkout_commit. intros Hr.
  apply bind_inl in Hr as [Hr|([] & s2 & Hc & Hr)].
  - apply get_db_connection_inl in Hr as (-> & Hdb & Hc & Hl & Hmsg).
    rewrite Hdb, Hc, Hl. repeat split; try apply extends_refl. right. now repeat split.
  - apply get_db_connection_inr in Hc as [_ ->].
    apply commit_fails_quietly in Hr as [(Hc & _ & Ho & Hi & Ht & Hl) [e ->]].
    simpl in *. repeat split; try assumption.
    + eapply extends_trans; [apply extends_app|exact Hl].
    + left. now exists e.
Qed.

Lemma checked_out_inv cust ts (s s' : St) :
  checked_out cust ts s s' ->
  exists s1,
    db s1 = db s /\ cart s1 = cart s /\ cart s <> [] /\
    log s1 = log s ++ inventory_calls /\
    checkout cust ts (fsum (map subtotal (cart s))) s1 = (inr tt, s').
Proof.
  intros [Hr Hok]. unfold rerun in Hr. rewrite tab2_sections in Hr.
  apply bind_inr in Hr as ([] & s1 & Hs & Hr).
  apply stock_section_idle in Hs as [(Hdb & Hc & _) Hout]; [|discriminate].
  destruct (Hout eq_refl) as [Ho Hl]. clear Hout. simpl in Hdb, Hc, Ho, Hl.
  unfold cart_section in Hr. apply bind_inr in Hr as (c & s2 & Hg & Hr).
  cbv [gets] in Hg. injection Hg as <- <-. rewrite Hc in Hr.
  destruct (cart s) as [|i c] eqn:Ecart.
  - cbv [ret] in Hr. injection Hr as <-. exfalso.
    destruct Ho as [Ho|Ho]; rewrite Ho in Hok; simpl in Hok; intuition discriminate.
  - apply bind_inr in Hr as ([] & s2 & Hg & Hr). cbv [ret] in Hg. injection Hg as <-.
    apply bind_inr in Hr as ([] & s2 & Hg & Hr). cbv [emit modify] in Hg. injection Hg as <-.
    unfold confirm_print, try_except in Hr.
    destruct (checkout _ _ _ _) as [[[e| |]|[]] s3] eqn:Ec; try discriminate.
    + exfalso. apply checkout_inl in Ec as (_ & _ & _ & _ & [(e' & _ & Ho')|([=] & _)]).
      cbv [st_error emit modify] in Hr. injection Hr as <-. simpl in Hok, Ho'.
      rewrite Ho' in Hok.
      destruct Ho as [Ho|Ho]; rewrite Ho in Hok; simpl in Hok; intuition discriminate.
    + injection Hr as <-.
      eexists; split; [|split; [|split; [|split; [|exact Ec]]]];
        simpl; auto; discriminate.
Qed.

End Tab.

(** * The commit sequence *)

Section Commit.

Context {F : Type} `{PyFloat F}.

Local Abbreviation St := (state F).

Local Notation "x <- m ;; k" := (bind m (fun x => k))
  (at level 61, m at next level, right associativity).
Local Notation "m ;;; k" := (bind m (fun _ => k))
  (at level 61, right associativity).

(** Everything a successful run of "Confirm & Print" has done, in terms
    of the session it started from. *)
Lemma checked_out_effects cust ts (s s' : St) :
  checked_out cust ts s s' ->
  let total := fsum (map subtotal (cart s)) in
  let inv_id := invoice_id_of (invoices_ws (db s)) in
  exists ws doc,
    Forall2 (fun i w => stock_write (snapshot s) i = inr w) (cart s) ws /\
    create_pdf inv_id cust ts (cart s) total = inr doc /\
    inventory_ws (db s') = fold_left apply_write ws (inventory_ws (db s)) /\
    invoices_ws (db s') = invoices_ws (db s) ++ [invoice_row inv_id cust ts total] /\
    items_ws (db s') = items_ws (db s) ++ map (line_row inv_id) (cart s) /\
    log s' = log s ++ inventory_calls ++ opening_calls inv_id cust ts total
               ++ flat_map (fun p => line_calls inv_id (fst p) (snd p)) (combine (cart s) ws) /\
    cart s' = [] /\
    In (StDownload (lit "Download PDF") doc (lit "Invoice_" ++ str_int inv_id ++ lit ".pdf"))
       (out s').
Proof.
  intros Hco. apply checked_out_inv in Hco as (s1 & Hdb & Hcart & Hne & Hlog & Hco).
  apply checkout_inr in Hco as (ws & doc & Hws & Hpdf & Hinv & Hhdr & Hit & Hl & Hc & Ho & _).
  unfold snapshot. rewrite Hdb, Hcart, Hlog in *.
  exists ws, doc. rewrite Hinv, Hhdr, Hit, Hl, Hc, Ho, <- !app_assoc.
  repeat split; auto. apply in_or_app. right. now left.
Qed.

(** C7.  The invoice identifier of a checkout is the number of rows the
    Invoices sheet holds at that moment plus the fixed offset 1000.  It is
    the identifier written on the invoice row and on every line-item row,
    and identifiers increase: the checkout adds one row to the sheet, so
    the next identifier is one more. *)
Theorem invoice_id_is_row_count_plus_offset cust ts (s s' : St) :
  checked_out cust ts s s' ->
  let inv_id := Z.of_nat (List.length (invoices_ws (db s))) + 1000 in
  invoices_ws (db s')
    = invoices_ws (db s) ++ [invoice_row inv_id cust ts (fsum (map subtotal (cart s)))] /\
  items_ws (db s') = items_ws (db s) ++ map (line_row inv_id) (cart s) /\
  invoice_id_of (invoices_ws (db s')) = inv_id + 1.
Proof.
  intros Hco inv_id.
  destruct (checked_out_effects _ _ _ _ Hco) as (ws & doc & _ & _ & _ & Hhdr & Hit & _).
  fold (invoice_id_of (invoices_ws (db s))) in inv_id.
  repeat split; try assumption.
  rewrite Hhdr. unfold invoice_id_of, inv_id, invoice_id_of.
  rewrite length_app. simpl. lia.
Qed.


Lemma line_calls_no_read inv_id (l : list (cart_line F * (nat * cell F))) :
  Forall (fun c => is_inventory_read c = false)
    (flat_map (fun p => line_calls inv_id (fst p) (snd p)) l).
Proof.
  induction l as [|p l IH]; simpl; [constructor|].
  constructor; [reflexivity|]. constructor; [reflexivity|exact IH].
Qed.

(** C10.  The commit reads the stock sheet once, before the first stock
    write and never again, and every line's new stock is worked out from
    that one reading.  So when several lines of the cart are for the same
    inventory row, the stock left after a successful commit is the stock
    before the commit minus the quantity of the last of them alone. *)
Theorem checkout_reads_stock_once_and_last_line_wins cust ts (s s' : St) hdr rows l1 i l2 :
  checked_out cust ts s s' ->
  inventory_layout (inventory_ws (db s)) hdr rows ->
  cart s = l1 ++ i :: l2 ->
  (forall j, In j l2 ->
     first_index (item j) (snapshot s) <> first_index (item i) (snapshot s)) ->
  (exists pre post,
     log s' = log s ++ inventory_calls ++ pre ++ GetAllRecords Inventory :: post /\
     Forall (fun c => is_inventory_read c = false) pre /\
     Forall (fun c => is_stock_write c = false) pre /\
     Forall (fun c => is_inventory_read c = false) post) /\
  (exists ws, Forall2 (fun j w => stock_write (snapshot s) j = inr w) (cart s) ws /\
     inventory_ws (db s') = fold_left apply_write ws (inventory_ws (db s))) /\
  exists before,
    stock_of (item i) (inventory_ws (db s)) = inr before /\
    stock_of (item i) (inventory_ws (db s')) = inr (before - qty i).
Proof.
  intros Hco Hlay Hcart Hlater.
  destruct (checked_out_effects _ _ _ _ Hco) as (ws & doc & Hws & _ & Hinv & _ & _ & Hlog & _).
  split; [|split].
  - exists (removelast
              (opening_calls (invoice_id_of (invoices_ws (db s))) cust ts
                 (fsum (map subtotal (cart s))))).
    eexists. split; [exact Hlog|].
    repeat split; try (repeat constructor). apply line_calls_no_read.
  - now exists ws.
  - rewrite Hinv. rewrite Hcart in Hws.
    eapply stock_after_writes; [exact Hlay|exact Hws|exact Hlater].
Qed.

(** C4, as the code has it.  A successful checkout works with the total
    computed from the cart beforehand and makes its calls in this order:
    it counts the rows of the Invoices sheet for the identifier, appends
    the invoice row, reads the Inventory sheet once, and then for each
    cart line in turn writes the stock worked out from that one reading
    and appends the line-item row; at the end the cart is empty. *)
Theorem commit_sequence_reads_stock_once cust ts (s s' : St) :
  checked_out cust ts s s' ->
  let total := fsum (map subtotal (cart s)) in
  let inv_id := invoice_id_of (invoices_ws (db s)) in
  exists ws,
    Forall2 (fun i w => stock_write (snapshot s) i = inr w) (cart s) ws /\
    log s' = log s ++ inventory_calls
               ++ [ Connect; Worksheet Invoices; Worksheet Invoice_Items;
                    Worksheet Inventory; GetAllValues Invoices;
                    AppendRow Invoices [CInt inv_id; CText cust; CText ts; CFloat total];
                    GetAllRecords Inventory ]
               ++ flat_map (fun p => [ UpdateCell Inventory (fst (snd p)) 2 (snd (snd p));
                                       AppendRow Invoice_Items (line_row inv_id (fst p)) ])
                    (combine (cart s) ws) /\
    cart s' = [].
Proof.
  intros Hco total inv_id.
  destruct (checked_out_effects _ _ _ _ Hco) as (ws & doc & Hws & _ & _ & _ & _ & Hlog & Hc & _).
  exists ws. repeat split; assumption.
Qed.

End Commit.

(** * The invoice document *)

Section Document.

Context {F : Type} `{PyFloat F}.

Local Abbreviation St := (state F).

Lemma fold_item_cells (items : list (cart_line F)) (pdf : document) :
  fold_left item_cells items pdf = pdf ++ flat_map line_cells items.
Proof.
  revert pdf. induction items as [|i items IH]; intros pdf; simpl.
  - now rewrite app_nil_r.
  - rewrite IH. unfold item_cells. now rewrite <- app_assoc.
Qed.

Lemma str_int_latin1 z : forallb latin1 (str_int z) = true.
Proof. apply lit_latin1. Qed.

Ltac fit_text :=
  unfold fits; cbn [op_text];
  rewrite ?forallb_latin1_app, ?clean_latin1, ?lit_latin1, ?str_int_latin1;
  reflexivity.

Lemma pdf_head_fits invoice_id customer_name date :
  forallb fits (pdf_head invoice_id customer_name date) = true.
Proof.
  unfold pdf_head. cbn [forallb].
  repeat (apply andb_true_intro; split); try reflexivity; fit_text.
Qed.

Lemma line_cells_fit (items : list (cart_line F)) :
  forallb fits (flat_map line_cells items) = true.
Proof.
  induction items as [|i items IH]; [reflexivity|].
  change (flat_map line_cells (i :: items))
    with (line_cells i ++ flat_map line_cells items).
  rewrite forallb_app, IH. unfold line_cells. cbn [forallb].
  repeat (apply andb_true_intro; split); try reflexivity; fit_text.
Qed.

Lemma pdf_tail_fits (total : F) : forallb fits (pdf_tail total) = true.
Proof.
  unfold pdf_tail. cbn [forallb].
  repeat (apply andb_true_intro; split); try reflexivity; fit_text.
Qed.

(** What [create_pdf] returns, for any input. *)
Lemma create_pdf_result invoice_id customer_name date (items : list (cart_line F)) total :
  create_pdf invoice_id customer_name date items total
    = inr (pdf_head invoice_id customer_name date
             ++ flat_map line_cells items ++ pdf_tail total).
Proof.
  unfold create_pdf, pdf_output. rewrite fold_item_cells, <- app_assoc.
  fold fits. now rewrite !forallb_app, pdf_head_fits, line_cells_fit, pdf_tail_fits.
Qed.

(** C9.  The renderer raises on no input: whatever the customer name, the
    date and the item names contain, [create_pdf] returns a document, and
    every text drawn on it fits latin-1.  The customer, the date, each
    item name, the company identity and the closing message are drawn
    after [clean], which keeps the length of a text, keeps each character
    latin-1 can encode and puts a question mark for each one it cannot. *)
Theorem create_pdf_never_raises invoice_id customer_name date
    (items : list (cart_line F)) total :
  (exists doc,
     create_pdf invoice_id customer_name date items total = inr doc /\
     (forall o, In o doc -> forallb latin1 (op_text o) = true) /\
     In (Cell 100 8 (lit "Customer: " ++ clean customer_name) 0 0 "" false) doc /\
     In (Cell 90 8 (lit "Date: " ++ clean date) 0 1 "R" false) doc /\
     (forall i, In i items ->
        In (Cell 90 10 (clean (cell_str (item i))) 1 0 "" false) doc) /\
     In (Cell 0 10 (clean (lit COMPANY_NAME)) 0 1 "C" false) doc /\
     In (MultiCell 0 5 (clean COMPANY_ADDRESS) "C") doc /\
     In (Cell 0 5 (lit "Tel: " ++ clean (lit COMPANY_PHONE)) 0 1 "C" false) doc /\
     In (Cell 0 5 (lit "Email: " ++ clean (lit COMPANY_EMAIL)) 0 1 "C" false) doc /\
     In (Cell 0 10 (clean (lit THANK_YOU_MSG)) 0 1 "C" false) doc) /\
  forall t : text,
    List.length (clean t) = List.length t /\
    forall n, nth n (clean t) 63%N
              = if latin1 (nth n t 63%N) then nth n t 63%N else 63%N.
Proof.
  split.
  - eexists. split; [apply create_pdf_result|].
    split; [|repeat split].
    + intros o Ho.
      assert (Hall : forallb fits (pdf_head invoice_id customer_name date
                        ++ flat_map line_cells items ++ pdf_tail total) = true)
        by now rewrite !forallb_app, pdf_head_fits, line_cells_fit, pdf_tail_fits.
      rewrite forallb_forall in Hall. exact (Hall o Ho).
    + apply in_or_app. left. unfold pdf_head. simpl. tauto.
    + apply in_or_app. left. unfold pdf_head. simpl. tauto.
    + intros i Hi. apply in_or_app. right. apply in_or_app. left.
      apply in_flat_map. exists i. split; [exact Hi|]. now left.
    + apply in_or_app. left. unfold pdf_head. simpl. tauto.
    + apply in_or_app. left. unfold pdf_head. simpl. tauto.
    + apply in_or_app. left. unfold pdf_head. simpl. tauto.
    + apply in_or_app. left. unfold pdf_head. simpl. tauto.
    + apply in_or_app. right. apply in_or_app. right. unfold pdf_tail. simpl. tauto.
  - intros t. split; [apply length_map|].
    induction t as [|c t IH]; intros [|n]; simpl; auto.
Qed.

(** *** Reading the document back *)

Lemma table_rows_skip (pre rest : document) cur :
  forallb (fun o => negb (is_body_cell o)) pre = true ->
  table_rows (pre ++ rest) cur = table_rows rest cur.
Proof.
  induction pre as [|o pre IH]; simpl; [reflexivity|].
  intros Hpre. apply andb_true_iff in Hpre as [Ho Hpre].
  destruct o; auto. simpl in Ho. apply negb_true_iff in Ho. rewrite Ho. auto.
Qed.

Lemma grand_total_skip (pre rest : document) :
  forallb (fun o => negb (is_total_label o)) pre = true ->
  grand_total (pre ++ rest) = grand_total rest.
Proof.
  induction pre as [|o pre IH]; simpl; [reflexivity|].
  intros Hpre. apply andb_true_iff in Hpre as [Ho Hpre].
  apply negb_true_iff in Ho. rewrite Ho. auto.
Qed.

Lemma table_rows_lines (items : list (cart_line F)) (rest : document) :
  table_rows (flat_map line_cells items ++ rest) []
    = map line_texts items ++ table_rows rest [].
Proof.
  induction items as [|i items IH]; [reflexivity|].
  simpl. now rewrite IH.
Qed.

Lemma grand_total_lines (items : list (cart_line F)) (rest : document) :
  grand_total (flat_map line_cells items ++ rest) = grand_total rest.
Proof.
  apply grand_total_skip. induction items as [|i items IH]; [reflexivity|].
  change (flat_map line_cells (i :: items))
    with (line_cells i ++ flat_map line_cells items).
  rewrite forallb_app, IH. reflexivity.
Qed.

(** The table and the grand total of the document [create_pdf] makes. *)
Lemma create_pdf_table invoice_id customer_name date (items : list (cart_line F)) total doc :
  create_pdf invoice_id customer_name date items total = inr doc ->
  table_rows doc [] = map line_texts items /\
  grand_total doc = Some (lit (fmt_c2f total)).
Proof.
  rewrite create_pdf_result. intros Hdoc.
  assert (Hd : doc = pdf_head invoice_id customer_name date
                       ++ flat_map line_cells items ++ pdf_tail total) by congruence.
  rewrite Hd. clear Hd Hdoc. split.
  - rewrite table_rows_skip by reflexivity.
    rewrite table_rows_lines. simpl. apply app_nil_r.
  - rewrite grand_total_skip by reflexivity.
    rewrite grand_total_lines. reflexivity.
Qed.


End Document.

(** * Errors, guards and the cart *)

Section Session.

Context {F : Type} `{PyFloat F}.

Local Abbreviation St := (state F).


(** C2, as the code has it.  With an empty cart the "Confirm & Print"
    button is not on the page: a run with that click is the run without
    any click.  Nothing is written to the store, the cart stays empty, and
    when the inventory is read without trouble the page shows no error:
    it is blank, or warns that nothing is in stock. *)
Theorem confirm_with_empty_cart_is_a_silent_no_op cust ts (s : St) :
  cart s = [] ->
  let r := rerun (ConfirmPrint cust ts) s in
  r = rerun NoClick s /\
  db (snd r) = db s /\ cart (snd r) = [] /\
  (fst r = inr tt ->
   (out (snd r) = [] \/ out (snd r) = [no_items]) /\
   log (snd r) = log s ++ inventory_calls).
Proof.
  intros Hcart r. subst r. unfold rerun. rewrite !tab2_sections, !bind_run.
  change (stock_section (ConfirmPrint cust ts)) with (@stock_section F _ NoClick).
  destruct (stock_section NoClick (blank_page s)) as [[sg|[]] s1] eqn:Es;
    apply stock_section_idle in Es as [(Hdb & Hc & _) Hout]; try discriminate;
    simpl in Hdb, Hc.
  - simpl. rewrite Hdb, Hc, Hcart. repeat split; discriminate.
  - destruct (Hout eq_refl) as [Ho Hl]. simpl in Ho, Hl.
    unfold cart_section. rewrite !bind_run. cbv [gets]. rewrite Hc, Hcart.
    cbv [ret]. simpl. rewrite Hdb, Hc, Hcart. repeat split; assumption.
Qed.

Lemma first_value_has_records name k (df : frame F) c :
  first_value name k df = inr c ->
  records df <> [] /\ exists names, column_of "Item Name" df = inr names.
Proof.
  unfold first_value. destruct (column_of "Item Name" df) as [e|names] eqn:En; [discriminate|].
  destruct (column_of k df) as [e|vals]; [discriminate|].
  destruct (find_index _ names) as [i|] eqn:Ei; [|discriminate].
  intros _. split; [|now exists names].
  unfold column_of in En. destruct (col_index "Item Name" df); [|discriminate].
  injection En as <-. intros Hr. rewrite Hr in Ei. discriminate.
Qed.

(** The cart section when the click was on "Add to Cart": it only shows
    the total of a cart that is not empty. *)
Lemma cart_section_after_add it q (s : St) :
  exists o, cart_section (AddToCart it q) s
            = (inr tt, mkState (db s) (faults s) (log s) (secrets s) (cart s) (out s ++ o)) /\
            (forall t, ~ In (StError t) o) /\ (forall t, ~ In (StSuccess t) o).
Proof.
  destruct s as [d f l sc c o]. unfold cart_section. rewrite bind_run. cbv [gets]. simpl.
  destruct c as [|i c].
  - exists []. rewrite app_nil_r. repeat split; intros t [].
  - eexists. split; [reflexivity|]. split; intros t [Ht|[]]; discriminate.
Qed.

(** The "Add to Cart" handler on a frame that has the product. *)
Lemma add_to_cart_run (df : frame F) it q (s : St) stock price0 :
  first_value it "Stock Qty" df = inr (CInt stock) ->
  first_value it "Unit Price" df = inr (CFloat price0) ->
  add_to_cart df it q s
    = (inr tt,
       if q >? stock
       then with_error (lit "Low Stock! Only " ++ str_int stock ++ lit " left.") s
       else mkState (db s) (faults s) (log s) (secrets s)
              (cart s ++ [mkLine it q price0 (fmul (float_of_int q) price0)])
              (out s ++ [StSuccess (lit "Added " ++ cell_str it)])).
Proof.
  intros Hstock Hprice. unfold add_to_cart.
  rewrite bind_run, Hstock. simpl lift. cbv [ret].
  rewrite bind_run, Hprice. simpl lift. cbv [ret].
  rewrite bind_run. simpl. destruct (q >? stock); reflexivity.
Qed.

(** C5.  "Add to Cart" works on the inventory read at the start of the
    same run.  With [stock] and [price0] the stock and price of the chosen
    product in that reading: when the quantity exceeds the stock, an error
    telling the stock is shown and the cart is as it was; otherwise one
    line is appended to the cart, holding the product, the quantity, that
    price and quantity times price.  Either way the run only reads the
    sheet: the store is unchanged. *)
Theorem add_to_cart_checks_stock it q (s s1 : St) (df : frame F) stock price0 :
  get_inventory (blank_page s) = (inr df, s1) ->
  first_value it "Stock Qty" df = inr (CInt stock) ->
  first_value it "Unit Price" df = inr (CFloat price0) ->
  let r := rerun (AddToCart it q) s in
  read_inventory (inventory_ws (db s)) = inr df /\
  fst r = inr tt /\
  db (snd r) = db s /\
  log (snd r) = log s ++ inventory_calls /\
  (stock < q ->
   cart (snd r) = cart s /\
   In (StError (lit "Low Stock! Only " ++ str_int stock ++ lit " left.")) (out (snd r)) /\
   forall t, ~ In (StSuccess t) (out (snd r))) /\
  (q <= stock ->
   cart (snd r) = cart s ++ [mkLine it q price0 (fmul (float_of_int q) price0)] /\
   forall t, ~ In (StError t) (out (snd r))).
Proof.
  intros Hread Hstock Hprice r.
  destruct (first_value_has_records _ _ _ _ Hstock) as [Hrec [names Hnames]].
  destruct (get_inventory_inr _ _ _ Hread) as (Hdf & Hdb & Hc & _ & Ho & Hl).
  simpl in Hdf, Hdb, Hc, Ho, Hl.
  assert (Hsec : stock_section (AddToCart it q) (blank_page s) = add_to_cart df it q s1).
  { unfold stock_section. rewrite bind_run, Hread.
    destruct (records df); [contradiction|]. rewrite bind_run, Hnames. reflexivity. }
  subst r. unfold rerun.
  rewrite tab2_sections, bind_run, Hsec, (add_to_cart_run _ _ _ _ _ _ Hstock Hprice).
  split; [exact Hdf|].
  destruct (q >? stock) eqn:Hq.
  - apply Z.gtb_lt in Hq.
    destruct (cart_section_after_add it q
                (with_error (lit "Low Stock! Only " ++ str_int stock ++ lit " left.") s1))
      as (o & -> & Herr & Hsuc).
    simpl. rewrite Hdb, Hl, Hc, Ho. repeat split; try lia.
    + simpl. now left.
    + intros t [Ht|Ht]; [discriminate|]. exact (Hsuc t Ht).
  - assert (q <= stock) by (destruct (Z.gtb_spec q stock); [discriminate|assumption]).
    destruct (cart_section_after_add it q
                (mkState (db s1) (faults s1) (log s1) (secrets s1)
                   (cart s1 ++ [mkLine it q price0 (fmul (float_of_int q) price0)])
                   (out s1 ++ [StSuccess (lit "Added " ++ cell_str it)])))
      as (o & -> & Herr & Hsuc).
    simpl. rewrite Hdb, Hl, Hc, Ho. repeat split; try lia.
    intros t [Ht|Ht]; [discriminate|]. exact (Herr t Ht).
Qed.

(** *** Deleting an item *)

(** When no cell of the sheet shows the name, [delete_item] reports that
    the item is not found and the store is as it was. *)
Lemma delete_item_reports_not_found (name : text) (s : St) :
  secrets s = true -> faults s = [] ->
  find_row_pure name (inventory_ws (db s)) = None ->
  let r := delete_item name s in
  fst r = inr tt /\ db (snd r) = db s /\
  out (snd r) = out s ++ [StError (lit "Item not found.")].
Proof.
  intros Hsec Hf Hnone r. subst r.
  destruct s as [d f l sc c o]. simpl in Hsec, Hf, Hnone. subst sc f.
  cbv [delete_item get_db_connection try_except try_bare bind gets request worksheet
       ret find_row st_error st_stop st_success emit modify throw delete_rows write_db].
  simpl. rewrite Hnone. simpl. repeat split.
Qed.

End Session.

(** * Runs on a store that answers *)

(** Unfolds the calls of the script on a state given by its fields. *)
Ltac run :=
  cbv [bind ret gets modify throw lift request worksheet get_all_values get_all_records
       append_row update_cell delete_rows write_db emit st_success st_error st_warning
       st_stop st_rerun set_cart get_db_connection try_except try_bare answering
       db faults log secrets cart out worksheet_of with_worksheet].

Section Forward.

Context {F : Type} `{PyFloat F}.

Local Abbreviation St := (state F).





Lemma get_inventory_run d l c o (df : frame F) :
  read_inventory (inventory_ws d) = inr df ->
  get_inventory (answering d l c o) = (inr df, answering d (l ++ inventory_calls) c o).
Proof.
  intros Hdf. unfold get_inventory, read_inventory in *. cbv zeta in Hdf. run.
  destruct (records (get_all_records_pure (inventory_ws d))) as [|r rs].
  - injection Hdf as <-. unfold inventory_calls. now rewrite <- !app_assoc.
  - destruct (map_column "Stock Qty" _ _) as [e|df1]; [discriminate|].
    rewrite Hdf. unfold inventory_calls. now rewrite <- !app_assoc.
Qed.






Lemma titles_layout (hdr : row F) rows :
  inventory_layout (titles hdr :: rows) (CText (lit "Unit Price") :: hdr) rows.
Proof. reflexivity. Qed.





End Forward.

(** * The connection and the text of the invoice *)

(** X1.  [clean] (lines 104-105) keeps the length of a text and every code
    point latin-1 has, and puts a question mark for each of the others;
    so it leaves a text alone exactly when the whole text is latin-1, and
    cleaning twice is cleaning once. *)
Theorem clean_keeps_latin1_and_marks_the_rest (t : text) :
  List.length (clean t) = List.length t /\
  (forall k c, nth_error t k = Some c ->
     nth_error (clean t) k = Some (if latin1 c then c else 63%N)) /\
  (clean t = t <-> forallb latin1 t = true) /\
  clean (clean t) = clean t.
Proof.
  assert (Hiff : forall u, clean u = u <-> forallb latin1 u = true).
  { induction u as [|c u IH]; simpl; [tauto|].
    destruct (latin1 c) eqn:Hc; simpl.
    - rewrite <- IH. split; [now intros [= ->]|now intros ->].
    - split; [|discriminate]. intros [= Hq _]. subst c. discriminate. }
  repeat split.
  - apply length_map.
  - intros k c Hk. unfold clean. now rewrite nth_error_map, Hk.
  - apply Hiff.
  - apply Hiff.
  - apply Hiff, clean_latin1.
Qed.

Section Connection.

Context {F : Type} `{PyFloat F}.

Local Abbreviation St := (state F).

(** X2.  [get_db_connection] (lines 22-35) never lets an exception out.  With
    the credentials missing it makes no call, shows the "Secrets missing"
    error and stops the script.  With the credentials, a failure of the
    connection is shown as "Connection Error" with the text of the
    failure, and the script is stopped; otherwise the connection is made
    and nothing is shown.  The store and the cart are as they were in all
    three cases. *)
Theorem get_db_connection_connects_or_stops (s : St) :
  let r := get_db_connection s in
  match secrets s, faults s with
  | false, _ =>
      r = (inl StopScript,
           with_error (cross_mark ++
             lit " Secrets missing! Please go to Settings > Secrets on Streamlit Cloud.") s)
  | true, Some msg :: _ =>
      r = (inl StopScript,
           with_error (cross_mark ++ lit " Connection Error: " ++ msg) (refused s))
  | true, _ => r = (inr tt, logged Connect s)
  end.
Proof.
  destruct s as [d f l [|] c o]; simpl; [|reflexivity].
  destruct f as [|[msg|] f]; reflexivity.
Qed.

End Connection.

(** * The "New Sale" tab on the store *)

Section Sale.

Context {F : Type} `{PyFloat F}.

Local Abbreviation St := (state F).

Local Notation "x <- m ;; k" := (bind m (fun x => k))
  (at level 61, m at next level, right associativity).
Local Notation "m ;;; k" := (bind m (fun _ => k))
  (at level 61, right associativity).

Lemma keeps_store_refl (s : St) : keeps_store s s.
Proof. split; [reflexivity|]. exists []. now rewrite app_nil_r. Qed.

Lemma keeps_store_trans (s1 s2 s3 : St) :
  keeps_store s1 s2 -> keeps_store s2 s3 -> keeps_store s1 s3.
Proof.
  intros [Hd1 (m1 & Hl1 & Hm1)] [Hd2 (m2 & Hl2 & Hm2)]. split; [congruence|].
  exists (m1 ++ m2). rewrite Hl2, Hl1, app_assoc. split; [reflexivity|].
  apply Forall_app. now split.
Qed.

Lemma keeps_store_request (c : call F) :
  is_write c = false -> respects keeps_store (request c).
Proof.
  intros Hc s r s'. unfold request.
  destruct (faults s) as [|[msg|] rest]; intros Hr; injection Hr as _ <-.
  - split; [reflexivity|]. exists [c]. now repeat constructor.
  - split; [reflexivity|]. exists []. simpl. now rewrite app_nil_r.
  - split; [reflexivity|]. exists [c]. now repeat constructor.
Qed.

Lemma keeps_store_emit (m : message) : respects keeps_store (emit (F:=F) m).
Proof.
  intros s r s' Hr. injection Hr as _ <-.
  split; [reflexivity|]. exists []. simpl. now rewrite app_nil_r.
Qed.

Lemma keeps_store_set_cart (c : list (cart_line F)) : respects keeps_store (set_cart c).
Proof.
  intros s r s' Hr. injection Hr as _ <-.
  split; [reflexivity|]. exists []. simpl. now rewrite app_nil_r.
Qed.

Ltac keeps_step :=
  first [ apply keeps_store_emit
        | apply keeps_store_set_cart
        | apply keeps_store_request; reflexivity
        | apply respects_ret; apply keeps_store_refl
        | apply respects_throw; apply keeps_store_refl
        | apply respects_lift; apply keeps_store_refl
        | apply respects_gets; apply keeps_store_refl
        | apply respects_bind; [apply keeps_store_trans| |intros ?] ].

Lemma keeps_store_get_inventory : respects keeps_store (get_inventory (F:=F)).
Proof.
  unfold get_inventory, get_db_connection, worksheet, get_all_records, st_error, st_stop.
  apply respects_bind; [apply keeps_store_trans| |intros _].
  - apply respects_try_except; [apply keeps_store_trans| |intros e]; repeat keeps_step.
    destruct a; repeat keeps_step.
  - repeat keeps_step. destruct (records _); repeat keeps_step.
Qed.

Lemma keeps_store_add_to_cart (df : frame F) it q : respects keeps_store (add_to_cart df it q).
Proof.
  unfold add_to_cart, st_error, st_success. repeat keeps_step.
  destruct (_ >? _); repeat keeps_step.
Qed.

(** X3.  Whatever the store answers, a run of the tab makes no call that
    changes the spreadsheet unless the click is on "Confirm & Print"
    (lines 189-226): refreshing the page, adding to the cart and clearing
    the cart only read. *)
Theorem only_confirm_writes_to_the_store (ev : event F) (s : St) :
  (forall cust ts, ev <> ConfirmPrint cust ts) ->
  keeps_store s (snd (rerun ev s)).
Proof.
  intros Hev. unfold rerun.
  destruct (tab2 ev (blank_page s)) as [r s'] eqn:Er. simpl.
  change (keeps_store (blank_page s) s').
  revert Er. generalize (blank_page s). intros s0. revert s0 r s'.
  change (respects keeps_store (tab2 ev)). unfold tab2, st_warning, st_rerun.
  apply respects_bind; [apply keeps_store_trans|apply keeps_store_get_inventory|intros df].
  apply respects_bind; [apply keeps_store_trans| |intros _].
  - destruct (records df); repeat keeps_step.
    destruct ev; first [apply keeps_store_add_to_cart|keeps_step].
  - apply respects_bind; [apply keeps_store_trans|keeps_step|intros c].
    destruct c as [|i c]; [keeps_step|].
    destruct ev as [|it q| |cu t]; [| | |now elim (Hev cu t)]; repeat keeps_step.
Qed.

(** ** Reading the inventory *)




Lemma get_inventory_raises d l c o e :
  read_inventory (inventory_ws d) = inl e ->
  get_inventory (F:=F) (answering d l c o)
    = (inl (Raise e), answering d (l ++ inventory_calls) c o).
Proof.
  intros Hdf. unfold get_inventory, read_inventory in *. cbv zeta in Hdf. run.
  destruct (records (get_all_records_pure (inventory_ws d))) as [|r rs]; [discriminate|].
  destruct (map_column "Stock Qty" _ _) as [e1|df1].
  - injection Hdf as <-. unfold inventory_calls. now rewrite <- !app_assoc.
  - rewrite Hdf. unfold inventory_calls. now rewrite <- !app_assoc.
Qed.

(** X5.  When the Inventory sheet has items but no column titled
    "Stock Qty", [get_inventory] raises [KeyError] at line 62; nothing in
    the tab catches it, so every run of the tab ends there, whatever the
    click: the cart section is not reached and the cart is kept. *)
Theorem inventory_without_stock_column_stops_the_tab (ev : event F) (s : St) hdr r rows :
  secrets s = true -> faults s = [] ->
  inventory_ws (db s) = hdr :: r :: rows ->
  (forall c, In c hdr -> cell_str c <> lit "Stock Qty") ->
  rerun ev s = (inl (Raise (KeyError "Stock Qty")),
                answering (db s) (log s ++ inventory_calls) (cart s) []).
Proof.
  intros Hsec Hf Hd Hhdr. destruct s as [d f l sc c o]. simpl in Hsec, Hf, Hd. subst sc f.
  unfold rerun, blank_page. cbn [db faults log secrets cart].
  change (mkState d [] l true c []) with (answering d l c []).
  unfold tab2. rewrite bind_run, (get_inventory_raises d l c [] (KeyError "Stock Qty")).
  - reflexivity.
  - rewrite Hd. unfold read_inventory. cbv zeta.
    change (get_all_records_pure (hdr :: r :: rows)) with (mkFrame hdr (r :: rows)).
    cbn [records]. unfold map_column, col_index. cbn [columns].
    replace (find_index (is_key "Stock Qty") hdr) with (@None nat); [reflexivity|].
    symmetry. apply find_index_none. intros x Hx. unfold is_key.
    destruct (text_eqb (cell_str x) (lit "Stock Qty")) eqn:E; [|reflexivity].
    apply text_eqb_eq in E. now elim (Hhdr x Hx).
Qed.

(** X6.  With no item on the Inventory sheet, its row of titles alone
    (lines 58-59 and 196-197), a click on "Add to Cart" adds nothing: the
    run warns "No items in stock.", leaves the cart and the store as they
    were and shows neither an error nor a confirmation. *)
Theorem empty_inventory_offers_nothing it q (s : St) hdr :
  secrets s = true -> faults s = [] ->
  inventory_ws (db s) = [hdr] ->
  let r := rerun (AddToCart it q) s in
  fst r = inr tt /\ db (snd r) = db s /\ cart (snd r) = cart s /\
  In no_items (out (snd r)) /\
  (forall t, ~ In (StSuccess t) (out (snd r))) /\
  (forall t, ~ In (StError t) (out (snd r))).
Proof.
  intros Hsec Hf Hd r. subst r.
  destruct s as [d f l sc c o]. simpl in Hsec, Hf, Hd. subst sc f.
  unfold rerun, blank_page. cbn [db faults log secrets cart].
  change (mkState d [] l true c []) with (answering d l c []).
  rewrite tab2_sections, bind_run.
  assert (Hread : read_inventory (inventory_ws d) = inr (mkFrame inventory_columns [])).
  { now rewrite Hd. }
  unfold stock_section. rewrite bind_run, (get_inventory_run d l c [] _ Hread).
  cbn [records]. cbv [st_warning emit modify answering].
  cbn [db faults log secrets cart out app].
  destruct (cart_section_after_add it q
              (mkState d [] (l ++ inventory_calls) true c [StWarning (lit "No items in stock.")]))
    as (o' & Hrun & Herr & Hsuc).
  unfold sheet, row in *. rewrite Hrun. cbn.
  repeat split.
  - now left.
  - intros t [Ht|Ht]; [discriminate|]. exact (Hsuc t Ht).
  - intros t [Ht|Ht]; [discriminate|]. exact (Herr t Ht).
Qed.


(** ** Adding to the cart *)




(** ** Confirm & Print *)





(** X11.  The document offered after a successful checkout carries what
    was stored: the number printed after "Invoice #:" and in the name of
    the file is the identifier of the row appended to the Invoices sheet,
    the customer and the date printed are those of that row (after
    [clean]), and the grand total printed is its total. *)
Theorem invoice_document_carries_the_stored_invoice cust ts (s s' : St) :
  checked_out cust ts s s' ->
  exists inv_id total doc,
    last (invoices_ws (db s')) [] = [CInt inv_id; CText cust; CText ts; CFloat total] /\
    In (StDownload (lit "Download PDF") doc (lit "Invoice_" ++ str_int inv_id ++ lit ".pdf"))
       (out s') /\
    In (Cell 90 8 (lit "Invoice #: " ++ str_int inv_id) 0 1 "R" false) doc /\
    In (Cell 100 8 (lit "Customer: " ++ clean cust) 0 0 "" false) doc /\
    In (Cell 90 8 (lit "Date: " ++ clean ts) 0 1 "R" false) doc /\
    grand_total doc = Some (lit (fmt_c2f total)).
Proof.
  intros Hco.
  destruct (checked_out_effects _ _ _ _ Hco)
    as (ws & doc & _ & Hpdf & _ & Hinv & _ & _ & _ & Hin).
  exists (invoice_id_of (invoices_ws (db s))), (fsum (map subtotal (cart s))), doc.
  split; [rewrite Hinv; apply last_last|]. split; [exact Hin|].
  pose proof (create_pdf_table _ _ _ _ _ _ Hpdf) as [_ Htotal].
  rewrite create_pdf_result in Hpdf.
  assert (Hdoc : doc = pdf_head (invoice_id_of (invoices_ws (db s))) cust ts
                         ++ flat_map line_cells (cart s)
                         ++ pdf_tail (fsum (map subtotal (cart s)))) by congruence.
  repeat split; try exact Htotal; rewrite Hdoc; apply in_or_app; left;
    unfold pdf_head; cbn [In]; tauto.
Qed.


End Sale.

(** * The "Inventory" tab on the store *)

Section Stockroom.

Context {F : Type} `{PyFloat F}.

Local Abbreviation St := (state F).

Lemma get_db_connection_run d l (c : list (cart_line F)) o :
  get_db_connection (answering d l c o) = (inr tt, answering d (l ++ [Connect]) c o).
Proof. reflexivity. Qed.

Lemma worksheet_run n d l (c : list (cart_line F)) o :
  worksheet n (answering d l c o) = (inr n, answering d (l ++ [Worksheet n]) c o).
Proof. reflexivity. Qed.

Lemma get_all_records_run n d l (c : list (cart_line F)) o :
  get_all_records n (answering d l c o)
    = (inr (get_all_records_pure (worksheet_of n d)),
       answering d (l ++ [GetAllRecords n]) c o).
Proof. reflexivity. Qed.

Lemma update_cell_run n r k (v : cell F) d l (c : list (cart_line F)) o :
  update_cell n r k v (answering d l c o)
    = (inr tt, answering (with_worksheet n (update_cell_pure r k v) d)
                 (l ++ [UpdateCell n r k v]) c o).
Proof. reflexivity. Qed.

Lemma append_row_run n (r : row F) d l (c : list (cart_line F)) o :
  append_row n r (answering d l c o)
    = (inr tt, answering (with_worksheet n (fun sh => sh ++ [r]) d)
                 (l ++ [AppendRow n r]) c o).
Proof. reflexivity. Qed.

Lemma existsb_find_index {A} (p : A -> bool) (l : list A) :
  existsb p l = match find_index p l with Some _ => true | None => false end.
Proof.
  induction l as [|x l IH]; simpl; [reflexivity|].
  destruct (p x); simpl; [reflexivity|]. rewrite IH. now destruct (find_index p l).
Qed.

Lemma column_of_names (hdr : row F) r rows :
  column_of "Item Name" (mkFrame (titles hdr) (r :: rows)) = inr (map name_of (r :: rows)).
Proof. reflexivity. Qed.

(** The run of [add_or_update_item] up to its test, on a sheet with items. *)
Lemma restock_reads name qty price d l (c : list (cart_line F)) o hdr r rows :
  inventory_ws d = titles hdr :: r :: rows ->
  add_or_update_item name qty price (answering d l c o)
    = (let df := mkFrame (titles hdr) (r :: rows) in
       let ws := Inventory in
       if existsb (fun x => cell_eqb x (CText name)) (map name_of (r :: rows)) then
         bind (lift (first_index (CText name) df)) (fun idx =>
         bind (lift (first_value (CText name) "Stock Qty" df)) (fun current_qty =>
         bind (lift (py_int current_qty)) (fun current_qty =>
         let new_qty := current_qty + qty in
         bind (update_cell ws (idx + 2)%nat 2 (CInt new_qty)) (fun _ =>
         bind (update_cell ws (idx + 2)%nat 3 (CFloat price)) (fun _ =>
         st_success (lit "Updated " ++ quoted name ++ lit ": Stock is now "
                       ++ str_int new_qty))))))
       else
         bind (append_row ws [CText name; CInt qty; CFloat price]) (fun _ =>
         st_success (lit "Created " ++ quoted name)))
        (answering d (l ++ inventory_calls) c o).
Proof.
  intros Hd. unfold add_or_update_item.
  rewrite bind_run, get_db_connection_run, bind_run, worksheet_run, bind_run,
    get_all_records_run.
  cbn [worksheet_of]. rewrite Hd.
  change (get_all_records_pure (titles hdr :: r :: rows)) with (mkFrame (titles hdr) (r :: rows)).
  cbn [records]. rewrite bind_run, bind_run, column_of_names.
  unfold inventory_calls. rewrite <- !app_assoc. reflexivity.
Qed.

(** One cell written on a data row. *)
Lemma update_cell_rows (h : row F) rows idx k (v : cell F) :
  update_cell_pure (idx + 2) (S k) v (h :: rows)
    = h :: set_nth [] idx (set_nth empty_cell k v (nth idx rows [])) rows.
Proof.
  unfold update_cell_pure. replace (pred (idx + 2)) with (S idx) by lia. reflexivity.
Qed.

(** X13.  "Update Inventory" for a product that is on the sheet (lines
    72-78 and 174-177) adds the quantity to the stock of the first row
    with that name and replaces its price, then reruns the script.  No row
    is added, the name and the other cells of that row and all the other
    rows are as they were, and the two invoice sheets are not written. *)
Theorem restock_adds_to_the_stock_of_a_known_item name qty price (s : St) hdr rows idx cur :
  secrets s = true -> faults s = [] ->
  inventory_ws (db s) = titles hdr :: rows ->
  name <> [] ->
  row_of (CText name) rows = Some idx ->
  py_int (qty_of (nth idx rows [])) = inr cur ->
  let r := update_inventory name qty price s in
  fst r = inl RerunScript /\
  out (snd r) = out s ++ [StSuccess (lit "Updated " ++ quoted name
                                       ++ lit ": Stock is now " ++ str_int (cur + qty))] /\
  invoices_ws (db (snd r)) = invoices_ws (db s) /\
  items_ws (db (snd r)) = items_ws (db s) /\
  exists rows',
    inventory_ws (db (snd r)) = titles hdr :: rows' /\
    List.length rows' = List.length rows /\
    (forall k, k <> idx -> nth k rows' [] = nth k rows []) /\
    name_of (nth idx rows' []) = name_of (nth idx rows []) /\
    qty_of (nth idx rows' []) = CInt (cur + qty) /\
    price_of (nth idx rows' []) = CFloat price /\
    forall j, (3 <= j)%nat -> cell_at (nth idx rows' []) j = cell_at (nth idx rows []) j.
Proof.
  intros Hsec Hf Hd Hname Hrow Hcur r. subst r.
  destruct s as [d f l sc c o]. simpl in Hsec, Hf, Hd. subst sc f.
  change (mkState d [] l true c o) with (answering d l c o).
  pose proof (row_of_lt _ _ _ Hrow) as Hlt.
  destruct rows as [|r0 rows]; [discriminate Hrow|].
  unfold update_inventory. destruct name as [|ch name]; [contradiction|].
  rewrite bind_run, (restock_reads _ qty price d l c o hdr r0 rows Hd). cbv zeta.
  rewrite existsb_find_index. fold (row_of (CText (ch :: name)) (r0 :: rows)). rewrite Hrow.
  pose proof (first_index_layout (titles hdr :: r0 :: rows) _ (r0 :: rows) (CText (ch :: name))
                (titles_layout hdr (r0 :: rows))) as Hfi.
  pose proof (first_value_layout (titles hdr :: r0 :: rows) _ (r0 :: rows) (CText (ch :: name))
                (titles_layout hdr (r0 :: rows))) as Hfv.
  change (get_all_records_pure (titles hdr :: r0 :: rows))
    with (mkFrame (titles hdr) (r0 :: rows)) in Hfi, Hfv.
  rewrite Hrow in Hfi, Hfv.
  rewrite bind_run, Hfi by discriminate. cbn [lift]. cbv [ret].
  rewrite bind_run, Hfv by discriminate. cbn [lift]. cbv [ret].
  rewrite bind_run, Hcur. cbn [lift]. cbv [ret]. cbv zeta.
  rewrite bind_run, update_cell_run, bind_run, update_cell_run.
  cbn [with_worksheet inventory_ws invoices_ws items_ws]. rewrite Hd.
  rewrite (update_cell_rows (titles hdr) (r0 :: rows) idx 1).
  rewrite (update_cell_rows (titles hdr) _ idx 2).
  cbv [st_success emit modify answering st_rerun throw].
  cbn [db faults log secrets cart out fst snd inventory_ws invoices_ws items_ws].
  repeat split.
  eexists. split; [reflexivity|].
  set (row1 := set_nth empty_cell 1 (CInt (cur + qty)) (nth idx (r0 :: rows) [])).
  set (rows1 := set_nth [] idx row1 (r0 :: rows)).
  assert (Hlen1 : List.length rows1 = List.length (r0 :: rows))
    by (apply length_set_nth; exact Hlt).
  assert (Hrow1 : nth idx rows1 [] = row1) by apply nth_set_nth_eq.
  unfold sheet, row in *. rewrite Hrow1. repeat split.
  - rewrite length_set_nth; [exact Hlen1|]. rewrite Hlen1. exact Hlt.
  - intros k Hk. rewrite nth_set_nth_neq by auto. unfold rows1.
    now rewrite nth_set_nth_neq by auto.
  - rewrite nth_set_nth_eq. unfold name_of, cell_at, row1.
    now rewrite !nth_set_nth_neq by discriminate.
  - rewrite nth_set_nth_eq. unfold qty_of, cell_at, row1.
    rewrite nth_set_nth_neq by discriminate. apply nth_set_nth_eq.
  - rewrite nth_set_nth_eq. unfold price_of, cell_at. apply nth_set_nth_eq.
  - intros j Hj. rewrite nth_set_nth_eq. unfold cell_at, row1.
    now rewrite !nth_set_nth_neq by lia.
Qed.

(** X14.  "Update Inventory" for a name that no row of the sheet carries
    (lines 79-81 and 174-177) appends one row holding the name, the
    quantity and the price after the rows already there, which are left as
    they are, shows that the item is created and reruns the script. *)
Theorem restock_appends_an_unknown_item name qty price (s : St) hdr rows :
  secrets s = true -> faults s = [] ->
  inventory_ws (db s) = titles hdr :: rows ->
  name <> [] ->
  row_of (CText name) rows = None ->
  let r := update_inventory name qty price s in
  fst r = inl RerunScript /\
  out (snd r) = out s ++ [StSuccess (lit "Created " ++ quoted name)] /\
  inventory_ws (db (snd r)) = titles hdr :: rows ++ [[CText name; CInt qty; CFloat price]] /\
  invoices_ws (db (snd r)) = invoices_ws (db s) /\
  items_ws (db (snd r)) = items_ws (db s).
Proof.
  intros Hsec Hf Hd Hname Hrow r. subst r.
  destruct s as [d f l sc c o]. simpl in Hsec, Hf, Hd. subst sc f.
  change (mkState d [] l true c o) with (answering d l c o).
  unfold update_inventory. destruct name as [|ch name]; [contradiction|].
  rewrite bind_run.
  destruct rows as [|r0 rows].
  - unfold add_or_update_item.
    rewrite bind_run, get_db_connection_run, bind_run, worksheet_run, bind_run,
      get_all_records_run.
    cbn [worksheet_of]. rewrite Hd. cbn. rewrite Hd. repeat split.
  - rewrite (restock_reads _ qty price d l c o hdr r0 rows Hd). cbv zeta.
    rewrite existsb_find_index. fold (row_of (CText (ch :: name)) (r0 :: rows)). rewrite Hrow.
    rewrite bind_run, append_row_run. cbn. rewrite Hd. repeat split.
Qed.

(** X15.  "Update Inventory" for a product whose stock cell does not
    convert to an int (line 75) raises the error of [int], which nothing
    catches; the three reading calls are all that was made and the sheet
    is as it was.  (The "New Sale" tab shows such a stock as 0.) *)
Theorem restock_of_an_unreadable_stock_fails name qty price (s : St) hdr rows idx e :
  secrets s = true -> faults s = [] ->
  inventory_ws (db s) = titles hdr :: rows ->
  name <> [] ->
  row_of (CText name) rows = Some idx ->
  py_int (qty_of (nth idx rows [])) = inl e ->
  update_inventory name qty price s
    = (inl (Raise e), answering (db s) (log s ++ inventory_calls) (cart s) (out s)).
Proof.
  intros Hsec Hf Hd Hname Hrow Hcur.
  destruct s as [d f l sc c o]. simpl in Hsec, Hf, Hd. subst sc f.
  change (mkState d [] l true c o) with (answering d l c o).
  destruct rows as [|r0 rows]; [discriminate Hrow|].
  unfold update_inventory. destruct name as [|ch name]; [contradiction|].
  rewrite bind_run, (restock_reads _ qty price d l c o hdr r0 rows Hd). cbv zeta.
  rewrite existsb_find_index. fold (row_of (CText (ch :: name)) (r0 :: rows)). rewrite Hrow.
  pose proof (first_index_layout (titles hdr :: r0 :: rows) _ (r0 :: rows) (CText (ch :: name))
                (titles_layout hdr (r0 :: rows))) as Hfi.
  pose proof (first_value_layout (titles hdr :: r0 :: rows) _ (r0 :: rows) (CText (ch :: name))
                (titles_layout hdr (r0 :: rows))) as Hfv.
  change (get_all_records_pure (titles hdr :: r0 :: rows))
    with (mkFrame (titles hdr) (r0 :: rows)) in Hfi, Hfv.
  rewrite Hrow in Hfi, Hfv.
  rewrite bind_run, Hfi by discriminate. cbn [lift]. cbv [ret].
  rewrite bind_run, Hfv by discriminate. cbn [lift]. cbv [ret].
  rewrite bind_run, Hcur. reflexivity.
Qed.

(** ** Deleting *)

Lemma length_remove_nth {A} (i : nat) (l : list A) :
  (i < List.length l)%nat -> S (List.length (remove_nth i l)) = List.length l.
Proof.
  revert l; induction i as [|i IH]; intros [|x l] Hi; simpl in *; try lia.
  rewrite IH; lia.
Qed.

Lemma nth_remove_nth {A} (i k : nat) (l : list A) (d : A) :
  nth k (remove_nth i l) d = if (k <? i)%nat then nth k l d else nth (S k) l d.
Proof.
  revert k l; induction i as [|i IH]; intros k [|x l]; simpl.
  - now destruct k.
  - reflexivity.
  - destruct (k <? S i)%nat; now destruct k.
  - destruct k as [|k]; [reflexivity|]. rewrite IH.
    change (S k <? S i)%nat with (k <? i)%nat. reflexivity.
Qed.

(** X16.  [delete_item] (lines 83-91) when no title of the sheet reads as
    the name and row [idx] is the first whose cells show it: that row is
    removed and no other, the rows after it move up by one in their
    order, the titles and the two invoice sheets are as they were, and
    the page says the item is deleted. *)
Theorem delete_item_removes_the_first_row_showing_the_name name (s : St) hdr rows idx :
  secrets s = true -> faults s = [] ->
  inventory_ws (db s) = hdr :: rows ->
  row_matches name hdr = false ->
  find_index (row_matches name) rows = Some idx ->
  let r := delete_item name s in
  fst r = inr tt /\
  out (snd r) = out s ++ [StSuccess (lit "Deleted " ++ quoted name)] /\
  invoices_ws (db (snd r)) = invoices_ws (db s) /\
  items_ws (db (snd r)) = items_ws (db s) /\
  exists rows',
    inventory_ws (db (snd r)) = hdr :: rows' /\
    S (List.length rows') = List.length rows /\
    (forall k, (k < idx)%nat -> nth k rows' [] = nth k rows []) /\
    (forall k, (idx <= k)%nat -> nth k rows' [] = nth (S k) rows []).
Proof.
  intros Hsec Hf Hd Hhdr Hidx r. subst r.
  destruct s as [d f l sc c o]. simpl in Hsec, Hf, Hd. subst sc f.
  assert (Hfind : find_row_pure name (inventory_ws d) = Some (S (S idx))).
  { rewrite Hd. unfold find_row_pure. simpl. now rewrite Hhdr, Hidx. }
  cbv [delete_item get_db_connection try_except try_bare bind gets request worksheet
       ret find_row st_error st_stop st_success emit modify throw delete_rows write_db].
  simpl. rewrite Hfind. simpl. rewrite Hd. repeat split.
  exists (remove_nth idx rows). split; [reflexivity|].
  split; [apply length_remove_nth; eapply find_index_lt; exact Hidx|].
  split; intros k Hk; rewrite nth_remove_nth.
  - apply Nat.ltb_lt in Hk. now rewrite Hk.
  - apply Nat.ltb_ge in Hk. now rewrite Hk.
Qed.

(** X17.  [delete_item] tells every failure inside its [try] the same way
    (lines 86-91): when the search or the deletion is refused by the
    service, the page says "Item not found." as it does for a name that
    is not on the sheet, the error itself is not shown, and the sheet is
    as it was. *)
Theorem delete_item_reports_every_failure_as_not_found name (s : St) msg rest :
  secrets s = true ->
  faults s = None :: None :: Some msg :: rest \/
  faults s = None :: None :: None :: Some msg :: rest ->
  let r := delete_item name s in
  fst r = inr tt /\ db (snd r) = db s /\
  out (snd r) = out s ++ [StError (lit "Item not found.")].
Proof.
  intros Hsec Hf r. subst r.
  destruct s as [d f l sc c o]. simpl in Hsec, Hf. subst sc.
  cbv [delete_item get_db_connection try_except try_bare bind gets request worksheet
       ret find_row st_error st_stop st_success emit modify throw delete_rows write_db].
  destruct Hf as [-> | ->]; simpl.
  - repeat split.
  - destruct (find_row_pure name (inventory_ws d)); simpl; repeat split.
Qed.

End Stockroom.

(** * The shop at work *)

Import Shop.

(** The scenario of the specification: three gauze at 5.00 out of ten.
    The cart totals 15.00; after the checkout the stock of gauze is 7,
    invoice 1001 is on the Invoices sheet with 15.00, one line is on the
    Invoice_Items sheet and the cart is empty. *)
Example gauze_scenario :
  cart (snd (rerun (AddToCart gauze 3) opened)) = [three_gauze] /\
  In (StMetric (lit "Total") (lit "GHS 15.00")) (out (snd (rerun (AddToCart gauze 3) opened))) /\
  fst (rerun (ConfirmPrint walk_in noon) with_gauze) = inr tt /\
  stock_of gauze (inventory_ws (db (sold with_gauze))) = inr 7 /\
  invoices_ws (db (sold with_gauze))
    = invoices ++ [[CInt 1001; CText walk_in; CText noon; CFloat 15%float]] /\
  items_ws (db (sold with_gauze))
    = invoice_items ++ [[CInt 1001; gauze; CInt 3; CFloat 15%float]] /\
  cart (sold with_gauze) = [].
Proof.
  repeat split; try (vm_compute; reflexivity).
  vm_compute. right. left. reflexivity.
Qed.

Lemma sold_checked_out (s : state float) :
  fst (rerun (ConfirmPrint walk_in noon) s) = inr tt ->
  In (StSuccess (lit "Success!")) (out (sold s)) ->
  checked_out walk_in noon s (sold s).
Proof.
  intros Hr Hin. split; [|exact Hin]. unfold sold.
  destruct (rerun (ConfirmPrint walk_in noon) s) as [r s']. simpl in *. now subst r.
Qed.

Lemma with_gauze_sold : checked_out walk_in noon with_gauze (sold with_gauze).
Proof.
  apply sold_checked_out; [vm_compute; reflexivity|].
  vm_compute. right. right. left. reflexivity.
Defined.

Lemma gauze_twice_sold : checked_out walk_in noon gauze_twice (sold gauze_twice).
Proof.
  apply sold_checked_out; [vm_compute; reflexivity|].
  vm_compute. right. right. left. reflexivity.
Defined.

Lemma gauze_and_tape_sold : checked_out walk_in noon gauze_and_tape (sold gauze_and_tape).
Proof.
  apply sold_checked_out; [vm_compute; reflexivity|].
  vm_compute. right. right. left. reflexivity.
Defined.



(** C10 at work: three gauze then four, the last line alone counts. *)
Lemma last_of_two_gauze_lines_wins :
  checked_out walk_in noon gauze_twice (sold gauze_twice) /\
  stock_of gauze (inventory_ws (db (sold gauze_twice))) = inr (10 - 4).
Proof.
  split; [exact gauze_twice_sold|].
  destruct (checkout_reads_stock_once_and_last_line_wins walk_in noon
              gauze_twice (sold gauze_twice) [CText (lit "Unit Price")]
              (tl inventory) [three_gauze] four_gauze []
              gauze_twice_sold eq_refl eq_refl) as (_ & _ & before & Hb & Ha).
  { intros j []. }
  assert (before = 10) as -> by (vm_compute in Hb; congruence).
  exact Ha.
Defined.

(** C7 at work: the Invoices sheet holds its header row alone, the first
    invoice is number 1001 and the next one will be 1002. *)
Lemma first_invoice_is_1001 :
  checked_out walk_in noon with_gauze (sold with_gauze) /\
  invoices_ws (db (sold with_gauze))
    = invoices ++ [invoice_row 1001 walk_in noon 15%float] /\
  invoice_id_of (invoices_ws (db (sold with_gauze))) = 1002.
Proof.
  split; [exact with_gauze_sold|].
  destruct (invoice_id_is_row_count_plus_offset walk_in noon with_gauze (sold with_gauze)
              with_gauze_sold) as (Hrow & _ & Hnext).
  split; [exact Hrow|exact Hnext].
Defined.

(** C4 fails as worded: on the cart with three gauze then four, the
    checkout reads the Inventory sheet once and leaves 6 in stock, where
    the sequence that reads the stock again for each line reads it twice
    and leaves 3. *)
Lemma stock_is_read_once_not_for_each_line :
  let a := checkout walk_in noon 35%float gauze_twice in
  let b := checkout_rereading walk_in noon 35%float gauze_twice in
  fst a = inr tt /\ fst b = inr tt /\
  List.length (filter is_inventory_read (log (snd a))) = 1%nat /\
  List.length (filter is_inventory_read (log (snd b))) = 2%nat /\
  stock_of gauze (inventory_ws (db (snd a))) = inr 6 /\
  stock_of gauze (inventory_ws (db (snd b))) = inr 3 /\
  log (snd a) <> log (snd b).
Proof.
  repeat split; try (vm_compute; reflexivity).
  intros Heq. apply (f_equal (@List.length _)) in Heq. vm_compute in Heq. discriminate.
Qed.

(** C4 at work: the calls of the checkout of gauze and tape. *)
Lemma calls_of_the_gauze_and_tape_checkout :
  checked_out walk_in noon gauze_and_tape (sold gauze_and_tape) /\
  log (sold gauze_and_tape)
    = [ Connect; Worksheet Inventory; GetAllRecords Inventory;
        Connect; Worksheet Invoices; Worksheet Invoice_Items; Worksheet Inventory;
        GetAllValues Invoices;
        AppendRow Invoices [CInt 1001; CText walk_in; CText noon; CFloat 20%float];
        GetAllRecords Inventory;
        UpdateCell Inventory 2 2 (CInt 7);
        AppendRow Invoice_Items [CInt 1001; gauze; CInt 3; CFloat 15%float];
        UpdateCell Inventory 3 2 (CInt 2);
        AppendRow Invoice_Items [CInt 1001; tape; CInt 2; CFloat 5%float] ] /\
  cart (sold gauze_and_tape) = [].
Proof.
  split; [exact gauze_and_tape_sold|].
  destruct (commit_sequence_reads_stock_once walk_in noon gauze_and_tape
              (sold gauze_and_tape) gauze_and_tape_sold) as (ws & _ & _ & Hcart).
  split; [vm_compute; reflexivity|exact Hcart].
Defined.



(** C2 fails as worded: a click on "Confirm & Print" with an empty cart,
    were it possible, reports no failure at all. *)
Lemma confirm_with_empty_cart_reports_nothing :
  cart opened = [] /\
  ~ reports_failure (rerun (ConfirmPrint walk_in noon) opened).
Proof.
  split; [reflexivity|].
  intros [[e He]|[t Ht]]; vm_compute in He || vm_compute in Ht; [discriminate|exact Ht].
Qed.

(** C2 at work. *)
Lemma confirm_with_empty_cart_on_the_shop :
  cart opened = [] /\
  rerun (ConfirmPrint walk_in noon) opened = rerun NoClick opened /\
  db (snd (rerun (ConfirmPrint walk_in noon) opened)) = store.
Proof.
  split; [reflexivity|].
  destruct (confirm_with_empty_cart_is_a_silent_no_op walk_in noon opened eq_refl)
    as (Hsame & Hdb & _).
  split; [exact Hsame|exact Hdb].
Defined.

(** C5 at work: eleven gauze out of ten are refused, three are added. *)
Lemma eleven_gauze_are_refused :
  let s1 := snd (get_inventory (blank_page opened)) in
  get_inventory (blank_page opened) = (inr shelf, s1) /\
  first_value gauze "Stock Qty" shelf = inr (CInt 10) /\
  first_value gauze "Unit Price" shelf = inr (CFloat 5%float) /\
  cart (snd (rerun (AddToCart gauze 11) opened)) = [] /\
  In (StError (lit "Low Stock! Only 10 left.")) (out (snd (rerun (AddToCart gauze 11) opened))) /\
  cart (snd (rerun (AddToCart gauze 3) opened)) = [three_gauze].
Proof.
  intros s1.
  assert (Hread : get_inventory (blank_page opened) = (inr shelf, s1))
    by (vm_compute; reflexivity).
  assert (Hstock : first_value gauze "Stock Qty" shelf = inr (CInt 10))
    by (vm_compute; reflexivity).
  assert (Hprice : first_value gauze "Unit Price" shelf = inr (CFloat 5%float))
    by (vm_compute; reflexivity).
  destruct (add_to_cart_checks_stock gauze 11 opened s1 shelf 10 5%float Hread Hstock Hprice)
    as (_ & _ & _ & _ & Hlow & _).
  destruct (add_to_cart_checks_stock gauze 3 opened s1 shelf 10 5%float Hread Hstock Hprice)
    as (_ & _ & _ & _ & _ & Hok).
  destruct (Hlow ltac:(lia)) as (Hcart & Herr & _).
  destruct (Hok ltac:(lia)) as (Hadd & _).
  repeat split; assumption.
Defined.

(** C8 fails on the code: no item of the shop is named "Stock Qty", yet
    [delete_item] finds the words in the header, deletes row 1 and
    reports a deletion. *)
Lemma delete_item_takes_the_header_for_an_item :
  let r := delete_item (lit "Stock Qty") opened in
  row_of (CText (lit "Stock Qty")) (tl inventory) = None /\
  fst r = inr tt /\
  inventory_ws (db (snd r)) = tl inventory /\
  out (snd r) = [StSuccess (lit "Deleted 'Stock Qty'")].
Proof. repeat split; vm_compute; reflexivity. Qed.

(** ** The other runs of the shop *)

(** Adding gauze to the cart only reads the store. *)
Lemma adding_gauze_only_reads :
  keeps_store opened (snd (rerun (AddToCart gauze 3) opened)).
Proof.
  apply (only_confirm_writes_to_the_store (AddToCart gauze 3) opened).
  intros cust ts. discriminate.
Defined.


(** With the stock column titled "Qty" the tab stops at the reading. *)
Lemma a_sheet_titled_qty_stops_the_sale :
  rerun NoClick mislabelled
    = (inl (Raise (KeyError "Stock Qty")),
       answering (db mislabelled) inventory_calls [] []).
Proof.
  apply (inventory_without_stock_column_stops_the_tab NoClick mislabelled
           [CText (lit "Item Name"); CText (lit "Qty"); CText (lit "Unit Price")]
           [gauze; CInt 10; CFloat 5%float] [] eq_refl eq_refl eq_refl).
  intros c [<-|[<-|[<-|[]]]]; vm_compute; discriminate.
Defined.

(** Nothing can be added from a sheet with no item. *)
Lemma nothing_to_add_from_a_bare_sheet :
  let r := rerun (AddToCart gauze 1) bare in
  fst r = inr tt /\ cart (snd r) = [] /\ In no_items (out (snd r)).
Proof.
  destruct (empty_inventory_offers_nothing gauze 1 bare inventory_columns
              eq_refl eq_refl eq_refl)
    as (Hr & _ & Hc & Hw & _).
  repeat split; assumption.
Defined.





(** The document of the gauze sale is numbered 1001 like its row. *)
Lemma the_gauze_invoice_is_numbered_1001 :
  exists doc,
    In (StDownload (lit "Download PDF") doc (lit "Invoice_1001.pdf")) (out (sold with_gauze)) /\
    In (Cell 90 8 (lit "Invoice #: 1001") 0 1 "R" false) doc /\
    In (Cell 100 8 (lit "Customer: Walk-in") 0 0 "" false) doc.
Proof.
  destruct (invoice_document_carries_the_stored_invoice walk_in noon with_gauze
              (sold with_gauze) with_gauze_sold)
    as (inv_id & total & doc & Hlast & Hfile & Hno & Hcust & _).
  assert (inv_id = 1001) as -> by (vm_compute in Hlast; congruence).
  exists doc. split; [exact Hfile|]. split; [exact Hno|exact Hcust].
Defined.


(** Five more gauze at 6.00. *)
Lemma five_more_gauze :
  let r := update_inventory (lit "Gauze") 5 6%float opened in
  fst r = inl RerunScript /\
  out (snd r) = [StSuccess (lit "Updated 'Gauze': Stock is now 15")] /\
  inventory_ws (db (snd r))
    = [ inventory_columns; [gauze; CInt 15; CFloat 6%float];
        [tape; CInt 4; CFloat 2.5%float] ].
Proof.
  intros r.
  destruct (restock_adds_to_the_stock_of_a_known_item (lit "Gauze") 5 6%float opened
              [] (tl inventory) 0%nat 10
              eq_refl eq_refl eq_refl ltac:(vm_compute; discriminate) eq_refl eq_refl)
    as (Hr & Hout & _).
  split; [exact Hr|]. split; [exact Hout|]. vm_compute. reflexivity.
Defined.

(** Swabs come in: a third row. *)
Lemma swabs_come_in :
  let r := update_inventory (lit "Swab") 20 1.5%float opened in
  fst r = inl RerunScript /\
  out (snd r) = [StSuccess (lit "Created 'Swab'")] /\
  inventory_ws (db (snd r)) = inventory ++ [[swab; CInt 20; CFloat 1.5%float]].
Proof.
  intros r.
  destruct (restock_appends_an_unknown_item (lit "Swab") 20 1.5%float opened
              [] (tl inventory)
              eq_refl eq_refl eq_refl ltac:(vm_compute; discriminate) eq_refl)
    as (Hr & Hout & Hinv & _).
  split; [exact Hr|]. split; [exact Hout|exact Hinv].
Defined.

(** Restocking the swabs whose stock is typed in words. *)
Lemma swabs_in_words_cannot_be_restocked :
  update_inventory (lit "Swab") 5 1%float in_words
    = (inl (Raise (ValueError (lit "invalid literal for int() with base 10: 'ten'"))),
       answering (db in_words) inventory_calls [] []).
Proof.
  apply (restock_of_an_unreadable_stock_fails (lit "Swab") 5 1%float in_words
           [] (tl (inventory_ws (db in_words))) 0%nat
           (ValueError (lit "invalid literal for int() with base 10: 'ten'"))
           eq_refl eq_refl eq_refl ltac:(vm_compute; discriminate) eq_refl eq_refl).
Defined.

(** Deleting the tape. *)
Lemma the_tape_is_deleted :
  let r := delete_item (lit "Tape") opened in
  fst r = inr tt /\
  out (snd r) = [StSuccess (lit "Deleted 'Tape'")] /\
  inventory_ws (db (snd r)) = [inventory_columns; [gauze; CInt 10; CFloat 5%float]].
Proof.
  intros r.
  assert (Hidx : find_index (row_matches (lit "Tape")) (tl inventory) = Some 1%nat)
    by (vm_compute; reflexivity).
  destruct (delete_item_removes_the_first_row_showing_the_name (lit "Tape") opened
              inventory_columns (tl inventory) 1%nat
              eq_refl eq_refl eq_refl eq_refl Hidx)
    as (Hr & Hout & _).
  split; [exact Hr|]. split; [exact Hout|]. vm_compute. reflexivity.
Defined.

(** The quota is exceeded when the gauze is searched for: "Item not
    found." *)
Lemma a_refused_search_reads_as_not_found :
  let r := delete_item (lit "Gauze") (failing_at 2 opened) in
  fst r = inr tt /\ db (snd r) = store /\
  out (snd r) = [StError (lit "Item not found.")].
Proof.
  exact (delete_item_reports_every_failure_as_not_found (lit "Gauze") (failing_at 2 opened)
           quota [] eq_refl (or_introl eq_refl)).
Defined.
